(** * DeFi reputation scoring server: scoring engine and stream processor

    A shallow embedding of [ai_model.py], [models.py], [kafka_service.py]
    and the message loop of [main.py].

    Conventions of the embedding.
    - Python [int] is [Z]; Python numbers that may be [float] (the scores)
      are exact rationals [Q]: the rounding of binary64 arithmetic is not
      part of the model.
    - A pandas [DataFrame] built from a list of transaction dicts is the
      list of its rows; [df.empty] is emptiness of that list.
    - [pd.to_datetime(ts, unit='s').dt.date] is the day number
      [ts / 86400] (floor division, UTC); timestamps are taken inside the
      range pandas can represent.
    - Python dicts with string keys are [gmap string _]; a decoded JSON
      object keeps its items as an association list with distinct keys.
    - Exceptions are values of [exn]; code that may raise returns a
      [result]. *)

From Stdlib Require Import ZArith QArith Lqa.
From stdpp Require Import base gmap strings list pretty.

Open Scope Z_scope.

(** ** Exceptions and results *)

Inductive exn : Type :=
| AttributeError (what : string)
| KeyError (key : string)
| TypeError (what : string)
| ValidationError (model : string) (detail : string).

Inductive result (A : Type) : Type :=
| Ok (a : A)
| Raise (e : exn).
Arguments Ok {A} a.
Arguments Raise {A} e.

(** [str(e)] *)
Definition str_exn (e : exn) : string :=
  match e with
  | AttributeError what => what
  | KeyError key => key
  | TypeError what => what
  | ValidationError model detail =>
      "validation error for " +:+ model +:+ ": " +:+ detail
  end.

Definition result_bind {A B} (r : result A) (k : A → result B) : result B :=
  match r with
  | Ok a => k a
  | Raise e => Raise e
  end.

Fixpoint result_mapM {A B} (f : A → result B) (l : list A) : result (list B) :=
  match l with
  | [] => Ok []
  | x :: l' =>
      result_bind (f x) (λ y,
      result_bind (result_mapM f l') (λ ys, Ok (y :: ys)))
  end.

(** ** Decoded JSON values ([json.loads]) *)

#[warnings="-register-all"]
Inductive json : Type :=
| JNull
| JBool (b : bool)
| JInt (n : Z)
| JFloat (x : Q)
| JStr (s : string)
| JList (items : list json)
| JDict (items : list (string * json)).

Fixpoint assoc_lookup {V} (k : string) (items : list (string * V)) : option V :=
  match items with
  | [] => None
  | (k', v) :: rest => if decide (k' = k) then Some v else assoc_lookup k rest
  end.

(** [v.get(key, default)]: only a dict has the method. *)
Definition json_get (v : json) (key : string) (dflt : json) : result json :=
  match v with
  | JDict items => Ok (default dflt (assoc_lookup key items))
  | _ => Raise (AttributeError "object has no attribute 'get'")
  end.

(** ** Pydantic models of [models.py] *)

Module Transaction.
Record t : Type := mk {
  document_id : string;
  action : string;
  timestamp : Z;
  caller : string;
  protocol : string;
  poolId : option string;
  poolName : option string;
  tokenIn : option (list (string * json));
  tokenOut : option (list (string * json));
  token_address : option string;
  amount : option Q;
  block_number : option Z
}.
End Transaction.

Module ProtocolData.
Record t : Type := mk {
  protocolType : string;
  transactions : list Transaction.t
}.
End ProtocolData.

Module WalletTransactionMessage.
Record t : Type := mk {
  wallet_address : string;
  data : list ProtocolData.t
}.
End WalletTransactionMessage.

Module AIFeatures.
Record t : Type := mk {
  active_days : Z;
  lp_score : Q;
  swap_score : Q;
  total_transaction_count : Z;
  user_tags : list string
}.
End AIFeatures.

Module CategoryScore.
Record t : Type := mk {
  category : string;
  score : Q;
  transaction_count : Z;
  features : AIFeatures.t
}.
End CategoryScore.

Module WalletScoreSuccess.
Record t : Type := mk {
  wallet_address : string;
  zscore : string;
  timestamp : Z;
  categories : list CategoryScore.t
}.
End WalletScoreSuccess.

Module WalletScoreFailure.
Record t : Type := mk {
  wallet_address : string;
  timestamp : Z;
  error : string
}.
End WalletScoreFailure.

(** ** Python values stored in the engine's feature dict *)

Inductive pyval : Type :=
| PyInt (n : Z)
| PyNum (x : Q)
| PyStrList (l : list string).

(** Python's [a > b] and [a <= b] on numbers. *)
Definition Qltb (x y : Q) : bool := Qnum x * QDen y <? Qnum y * QDen x.
Definition Qleb (x y : Q) : bool := Qnum x * QDen y <=? Qnum y * QDen x.

(** ** The scoring engine ([ai_model.py]) *)

Module AIModel.

Abbreviation DataFrame := (list Transaction.t) (only parsing).

Definition empty (df : DataFrame) : bool :=
  match df with [] => true | _ => false end.

Definition len (df : DataFrame) : Z := Z.of_nat (length df).

(** [SCORING_CONFIG] *)
Definition lp_weight : Q := 6 # 10.
Definition swap_weight : Q := 4 # 10.

(** [SCORE_MAP]: per score type, the buckets in insertion order. *)
Definition SCORE_MAP : gmap string (list (Z * Z * Z)) :=
  list_to_map
    [ ("lp_score",
       [ (0, 1, 150); (1, 5, 250); (5, 10, 350); (10, 25, 450);
         (25, 50, 550); (50, 75, 650); (75, 90, 750); (90, 95, 850);
         (95, 99, 950); (99, 100, 1000) ]);
      ("swap_score",
       [ (0, 1, 150); (1, 5, 250); (5, 10, 350); (10, 25, 450);
         (25, 50, 550); (50, 75, 650); (75, 90, 800); (90, 95, 900);
         (95, 99, 950); (99, 100, 1000) ]) ].

(** [.dt.date] of [pd.to_datetime(ts, unit='s')]: days since the epoch.
    This is the date of a timestamp that pandas converts; outside the
    range of [datetime64[ns]] the conversion raises (see [representable]
    below). *)
Definition to_date (ts : Z) : Z := ts / 86400.

(** [Series.nunique()] *)
Definition nunique (col : list Z) : Z := Z.of_nat (length (remove_dups col)).

Definition _calculate_active_days (df : DataFrame) : Z :=
  if empty df then 0
  else
    let date := map (λ row, to_date (Transaction.timestamp row)) df in
    let active_days := nunique date in
    if active_days =? 10 then 9 else active_days.

(** [score_map.get(key, default)] on the tuple-keyed bucket table. *)
Fixpoint bucket_get (key : Z * Z) (score_map : list (Z * Z * Z)) (dflt : Z) : Z :=
  match score_map with
  | [] => dflt
  | (lower, upper, value) :: rest =>
      if decide ((lower, upper) = key) then value else bucket_get key rest dflt
  end.

(** The [for (lower, upper), value in score_map.items()] loop. *)
Fixpoint first_bucket (score : Q) (score_map : list (Z * Z * Z)) : option Z :=
  match score_map with
  | [] => None
  | (lower, upper, value) :: rest =>
      if Qleb (inject_Z lower) score && Qltb score (inject_Z upper)
      then Some value
      else first_bucket score rest
  end.

Definition _normalize_score (score : Q) (score_type : string) : result Q :=
  match SCORE_MAP !! score_type with
  | None => Raise (KeyError score_type)
  | Some score_map =>
      match first_bucket score score_map with
      | Some value => Ok (inject_Z value)
      | None =>
          if Qleb 99 score
          then Ok (inject_Z (bucket_get (99, 100) score_map 1000))
          else Ok 0%Q
      end
  end.

(** [df[df['action'].isin(values)]] *)
Definition isin (values : list string) (df : DataFrame) : DataFrame :=
  filter (λ row, Transaction.action row ∈ values) df.

Definition _process_dex_transactions (df : DataFrame) : Q * Q * list string :=
  if empty df then (0%Q, 0%Q, ["inactive"])
  else
    let user_tags : list string := [] in
    let lp_df := isin ["add_liquidity"; "remove_liquidity"] df in
    let swap_df := isin ["swap"] df in
    let '(lp_score, user_tags) :=
      if 0 <? len lp_df then
        let active_days_lp := _calculate_active_days lp_df in
        let user_tags :=
          if 0 <? active_days_lp then user_tags ++ ["consistent_lp"]
          else user_tags in
        (inject_Z (len lp_df * 100), user_tags)
      else (0%Q, user_tags) in
    let '(swap_score, user_tags) :=
      if 0 <? len swap_df then
        (inject_Z (len swap_df * 100), user_tags ++ ["consistent_trader"])
      else (0%Q, user_tags) in
    (lp_score, swap_score, user_tags).

(** [next((p for p in data if p['protocolType'] == 'dexes'), None)] *)
Definition find_dex (data : list ProtocolData.t) : option ProtocolData.t :=
  List.find (λ p, bool_decide (ProtocolData.protocolType p = "dexes")) data.

Definition calculate_score (wallet_data : WalletTransactionMessage.t)
  : Q * gmap string pyval :=
  match find_dex (WalletTransactionMessage.data wallet_data) with
  | None => (0%Q, ∅)
  | Some dex_data =>
      let df := ProtocolData.transactions dex_data in
      let '(lp_score, swap_score, user_tags) := _process_dex_transactions df in
      let '(final_score, user_tags) :=
        if Qltb 0 lp_score && Qltb 0 swap_score then
          ((lp_score * lp_weight + swap_score * swap_weight)%Q, user_tags)
        else if Qltb 0 lp_score then (lp_score, user_tags)
        else if Qltb 0 swap_score then (swap_score, user_tags)
        else
          (0%Q,
           if bool_decide ("inactive" ∈ user_tags) then user_tags
           else user_tags ++ ["inactive"]) in
      let features : gmap string pyval :=
        list_to_map
          [ ("lp_score", PyNum lp_score);
            ("swap_score", PyNum swap_score);
            ("active_days", PyInt (_calculate_active_days df));
            ("total_transaction_count", PyInt (len df));
            ("user_tags", PyStrList user_tags) ] in
      (final_score, features)
  end.

End AIModel.

(** ** Building the output envelopes

    Constructing a pydantic model validates its arguments against the
    field declarations of [models.py].  The wording of pydantic's report
    is not modelled beyond the first offending field. *)

(** A value offered to an [int] field. *)
Definition as_int (v : pyval) : option Z :=
  match v with
  | PyInt n => Some n
  | PyNum x => if Qnum x mod QDen x =? 0 then Some (Qnum x / QDen x) else None
  | PyStrList _ => None
  end.

(** A value offered to a [float] field. *)
Definition as_float (v : pyval) : option Q :=
  match v with
  | PyInt n => Some (inject_Z n)
  | PyNum x => Some x
  | PyStrList _ => None
  end.

(** A value offered to a [List[str]] field. *)
Definition as_str_list (v : pyval) : option (list string) :=
  match v with
  | PyStrList l => Some l
  | _ => None
  end.

(** One declared field of a model, read from the dict given for it. *)
Definition field {A} (model : string) (conv : pyval → option A)
    (d : gmap string pyval) (name : string) : result A :=
  match d !! name with
  | None => Raise (ValidationError model (name +:+ ": Field required"))
  | Some v =>
      match conv v with
      | Some a => Ok a
      | None => Raise (ValidationError model (name +:+ ": Input has the wrong type"))
      end
  end.

Definition AIFeatures_validate (d : gmap string pyval) : result AIFeatures.t :=
  result_bind (field "AIFeatures" as_int d "active_days") (λ active_days,
  result_bind (field "AIFeatures" as_float d "lp_score") (λ lp_score,
  result_bind (field "AIFeatures" as_float d "swap_score") (λ swap_score,
  result_bind (field "AIFeatures" as_int d "total_transaction_count") (λ total,
  result_bind (field "AIFeatures" as_str_list d "user_tags") (λ user_tags,
  Ok (AIFeatures.mk active_days lp_score swap_score total user_tags)))))).

(** The dict literal placed in [categories]. *)
Record category_dict : Type := CategoryDict {
  cd_category : string;
  cd_score : Q;
  cd_transaction_count : pyval;
  cd_features : gmap string pyval
}.

Definition CategoryScore_validate (c : category_dict) : result CategoryScore.t :=
  match as_int (cd_transaction_count c) with
  | None =>
      Raise (ValidationError "CategoryScore" "transaction_count: Input has the wrong type")
  | Some n =>
      result_bind (AIFeatures_validate (cd_features c)) (λ features,
      Ok (CategoryScore.mk (cd_category c) (cd_score c) n features))
  end.

(** [WalletScoreSuccess(wallet_address=..., zscore=..., timestamp=..., categories=[...])] *)
Definition WalletScoreSuccess_new (wallet_address zscore : string) (timestamp : Z)
    (categories : list category_dict) : result WalletScoreSuccess.t :=
  result_bind (result_mapM CategoryScore_validate categories) (λ cats,
  Ok (WalletScoreSuccess.mk wallet_address zscore timestamp cats)).

(** [WalletScoreFailure(wallet_address=..., timestamp=..., error=...)]; the
    address comes straight from the decoded payload. *)
Definition WalletScoreFailure_new (wallet_address : json) (timestamp : Z)
    (error : string) : result WalletScoreFailure.t :=
  match wallet_address with
  | JStr s => Ok (WalletScoreFailure.mk s timestamp error)
  | _ =>
      Raise (ValidationError "WalletScoreFailure"
               "wallet_address: Input should be a valid string")
  end.

(** [f"{x:.18f}"]: the value rounded (half to even) to 18 fractional digits. *)
Definition round_half_even (x : Q) : Z :=
  let n := Qnum x in
  let d := QDen x in
  let q := n / d in
  let r := n mod d in
  if 2 * r <? d then q
  else if d <? 2 * r then q + 1
  else if Z.even q then q else q + 1.

Definition zfill (width : nat) (s : string) : string :=
  String.concat "" (replicate (width - String.length s) "0") +:+ s.

Definition format_18f (x : Q) : string :=
  let scaled := round_half_even (x * inject_Z (10 ^ 18))%Q in
  let magnitude := Z.abs scaled in
  (if scaled <? 0 then "-" else "")
  +:+ pretty (magnitude / 10 ^ 18) +:+ "."
  +:+ zfill 18 (pretty (magnitude mod 10 ^ 18)).

(** ** The Kafka service ([kafka_service.py])

    Wire formats are symbolic: a JSON text is represented by the document
    it renders. *)

Inductive OutputEnvelope : Type :=
| Success (m : WalletScoreSuccess.t)
| Failure (m : WalletScoreFailure.t).

Inductive json_text : Type :=
| JsonDocument (e : OutputEnvelope)
| JsonString (s : json_text).

Inductive bytes : Type :=
| Utf8 (text : json_text).

(** What a caller may hand to [producer.send]: the dict of a model
    ([model_dump()]), a [str], or [bytes]. *)
Inductive pyobj : Type :=
| PyDict (e : OutputEnvelope)
| PyStr (s : json_text)
| PyBytes (b : bytes).

(** [model.model_dump_json()] *)
Definition model_dump_json (e : OutputEnvelope) : json_text := JsonDocument e.

(** [s.encode('utf-8')] *)
Definition encode (s : json_text) : bytes := Utf8 s.

(** [json.dumps]: bytes are not JSON serialisable. *)
Definition json_dumps (x : pyobj) : result json_text :=
  match x with
  | PyDict e => Ok (JsonDocument e)
  | PyStr s => Ok (JsonString s)
  | PyBytes _ => Raise (TypeError "Object of type bytes is not JSON serializable")
  end.

(** [value_serializer=lambda x: json.dumps(x).encode('utf-8')] *)
Definition value_serializer (x : pyobj) : result bytes :=
  result_bind (json_dumps x) (λ s, Ok (encode s)).

Module KafkaService.
Record t : Type := mk {
  INPUT_TOPIC : string;
  SUCCESS_TOPIC : string;
  FAILURE_TOPIC : string
}.
End KafkaService.

(** The topics when the environment leaves them unset. *)
Definition get_kafka_service : KafkaService.t :=
  KafkaService.mk "wallet-transactions" "wallet-scores-success" "wallet-scores-failure".

Module ConsumerRecord.
Record t : Type := mk {
  topic : string;
  value : json;
  timestamp : Z
}.
End ConsumerRecord.

(** ** The stream processor ([main.py]) *)

Record Stats : Type := mkStats {
  processed_count : Z;
  success_count : Z;
  failure_count : Z;
  last_processed_timestamp : option Z
}.

(** Everything the loop can change: the counters, the records accepted by
    the producer (oldest first), the number of clock readings taken, and
    the errors reported by the outer handler. *)
Record World : Type := mkWorld {
  stats : Stats;
  sent : list (string * bytes);
  ticks : nat;
  fatal : list string
}.

Definition M (A : Type) : Type := World → result A * World.

Definition ret {A} (a : A) : M A := λ w, (Ok a, w).

Definition bind {A B} (m : M A) (k : A → M B) : M B :=
  λ w, match m w with
       | (Ok a, w') => k a w'
       | (Raise e, w') => (Raise e, w')
       end.

Definition lift {A} (r : result A) : M A := λ w, (r, w).

(** [try: body except Exception as e: handler(e)] *)
Definition try_except {A} (body : M A) (handler : exn → M A) : M A :=
  λ w, match body w with
       | (Ok a, w') => (Ok a, w')
       | (Raise e, w') => handler e w'
       end.

Notation "x <~ m ;; k" := (bind m (λ x, k))
  (at level 100, m at next level, right associativity).
Notation "m ;;; k" := (bind m (λ _, k))
  (at level 100, right associativity).

Definition update_stats (f : Stats → Stats) : M unit :=
  λ w, (Ok tt, mkWorld (f (stats w)) (sent w) (ticks w) (fatal w)).

(** [producer.send(topic, value=...)]: the value goes through the
    [value_serializer] the producer was configured with; the bytes it
    returns are queued for the topic, and an exception of the serializer
    is raised to the caller. *)
Definition producer_send (topic : string) (value : pyobj) : M unit :=
  λ w, match value_serializer value with
       | Ok b => (Ok tt, mkWorld (stats w) (sent w ++ [(topic, b)]) (ticks w) (fatal w))
       | Raise e => (Raise e, w)
       end.

Section StreamProcessor.

(** [WalletTransactionMessage.model_validate], the schema validator. *)
Variable model_validate : json → result WalletTransactionMessage.t.
(** [int(datetime.now().timestamp())] at the n-th reading. *)
Variable clock : nat → Z.
Variable kafka_service : KafkaService.t.

Definition datetime_now : M Z :=
  λ w, (Ok (clock (ticks w)), mkWorld (stats w) (sent w) (S (ticks w)) (fatal w)).

(** The [try] block: validate, score, build and publish the success
    envelope, count the success. *)
Definition try_body (msg : ConsumerRecord.t) : M unit :=
  message_data <~ lift (model_validate (ConsumerRecord.value msg)) ;;
  let '(final_score, features) := AIModel.calculate_score message_data in
  now <~ datetime_now ;;
  output_message <~ lift
    (WalletScoreSuccess_new
       (WalletTransactionMessage.wallet_address message_data)
       (format_18f final_score)
       now
       [ CategoryDict "dexes" final_score
           (default (PyInt 0) (features !! "total_transaction_count"))
           (filter (λ kv, kv.1 ≠ "user_tags") features) ]) ;;
  producer_send (KafkaService.SUCCESS_TOPIC kafka_service)
    (PyBytes (encode (model_dump_json (Success output_message)))) ;;;
  update_stats (λ s, mkStats (processed_count s) (success_count s + 1)
                       (failure_count s) (last_processed_timestamp s)).

(** The [except (ValidationError, Exception) as e] block. *)
Definition except_body (msg : ConsumerRecord.t) (e : exn) : M unit :=
  (* logger.error(..., wallet_address=msg.value.get(...), error=str(e)) *)
  _ <~ lift (json_get (ConsumerRecord.value msg) "wallet_address" (JStr "N/A")) ;;
  update_stats (λ s, mkStats (processed_count s) (success_count s)
                       (failure_count s + 1) (last_processed_timestamp s)) ;;;
  wallet_address <~ lift
    (json_get (ConsumerRecord.value msg) "wallet_address" (JStr "N/A")) ;;
  now <~ datetime_now ;;
  failure_message <~ lift
    (WalletScoreFailure_new wallet_address now (str_exn e)) ;;
  producer_send (KafkaService.FAILURE_TOPIC kafka_service)
    (PyBytes (encode (model_dump_json (Failure failure_message)))).

(** The body of [for msg in consumer]. *)
Definition process_message (msg : ConsumerRecord.t) : M unit :=
  (* logger.info(..., wallet_address=msg.value.get('wallet_address', 'N/A')) *)
  _ <~ lift (json_get (ConsumerRecord.value msg) "wallet_address" (JStr "N/A")) ;;
  update_stats (λ s, mkStats (processed_count s + 1) (success_count s)
                       (failure_count s) (last_processed_timestamp s)) ;;;
  update_stats (λ s, mkStats (processed_count s) (success_count s)
                       (failure_count s)
                       (Some (Z.quot (ConsumerRecord.timestamp msg) 1000))) ;;;
  try_except (try_body msg) (except_body msg).

(** The outer [except Exception]: report, wait, resume. *)
Definition log_fatal (e : exn) (w : World) : World :=
  mkWorld (stats w) (sent w) (ticks w) (fatal w ++ [str_exn e]).

(** The loop over the messages the consumer delivers.  An exception that
    leaves the body ends the [for] statement; the enclosing [while True]
    then iterates the same consumer again, from the next message. *)
Fixpoint kafka_processor (msgs : list ConsumerRecord.t) (w : World) : World :=
  match msgs with
  | [] => w
  | msg :: rest =>
      match process_message msg w with
      | (Ok _, w') => kafka_processor rest w'
      | (Raise e, w') => kafka_processor rest (log_fatal e w')
      end
  end.

End StreamProcessor.

(** ** A strict reading of the input schema

    [strict_model_validate] accepts a payload exactly when it is a JSON
    object whose members have the JSON types that [models.py] declares.
    Pydantic's lax conversions (a numeric string or an integral float
    offered to an [int] field) and the digit limits of [amount] are left
    out.  It stands in for the validator wherever a concrete one is
    needed; the general lemmas below hold for every validator. *)

Definition js_str (v : json) : option string :=
  match v with JStr s => Some s | _ => None end.
Definition js_int (v : json) : option Z :=
  match v with JInt n => Some n | _ => None end.
Definition js_dict (v : json) : option (list (string * json)) :=
  match v with JDict items => Some items | _ => None end.
Definition js_decimal (v : json) : option Q :=
  match v with JInt n => Some (inject_Z n) | JFloat x => Some x | _ => None end.

Definition required {A} (model : string) (conv : json → option A)
    (items : list (string * json)) (name : string) : result A :=
  match assoc_lookup name items with
  | None => Raise (ValidationError model (name +:+ ": Field required"))
  | Some v =>
      match conv v with
      | Some a => Ok a
      | None => Raise (ValidationError model (name +:+ ": Input has the wrong type"))
      end
  end.

Definition optional {A} (model : string) (conv : json → option A)
    (items : list (string * json)) (name : string) : result (option A) :=
  match assoc_lookup name items with
  | None | Some JNull => Ok None
  | Some v =>
      match conv v with
      | Some a => Ok (Some a)
      | None => Raise (ValidationError model (name +:+ ": Input has the wrong type"))
      end
  end.

Definition Transaction_validate (v : json) : result Transaction.t :=
  match v with
  | JDict items =>
      result_bind (required "Transaction" js_str items "document_id") (λ document_id,
      result_bind (required "Transaction" js_str items "action") (λ action,
      result_bind (required "Transaction" js_int items "timestamp") (λ timestamp,
      result_bind (required "Transaction" js_str items "caller") (λ caller,
      result_bind (required "Transaction" js_str items "protocol") (λ protocol,
      result_bind (optional "Transaction" js_str items "poolId") (λ poolId,
      result_bind (optional "Transaction" js_str items "poolName") (λ poolName,
      result_bind (optional "Transaction" js_dict items "tokenIn") (λ tokenIn,
      result_bind (optional "Transaction" js_dict items "tokenOut") (λ tokenOut,
      result_bind (optional "Transaction" js_str items "token_address") (λ token_address,
      result_bind (optional "Transaction" js_decimal items "amount") (λ amount,
      result_bind (optional "Transaction" js_int items "block_number") (λ block_number,
      Ok (Transaction.mk document_id action timestamp caller protocol poolId
            poolName tokenIn tokenOut token_address amount block_number)))))))))))))
  | _ => Raise (ValidationError "Transaction" "Input should be an object")
  end.

Definition ProtocolData_validate (v : json) : result ProtocolData.t :=
  match v with
  | JDict items =>
      result_bind (required "ProtocolData" js_str items "protocolType") (λ protocolType,
      match assoc_lookup "transactions" items with
      | None => Raise (ValidationError "ProtocolData" "transactions: Field required")
      | Some (JList txs) =>
          result_bind (result_mapM Transaction_validate txs) (λ transactions,
          Ok (ProtocolData.mk protocolType transactions))
      | Some _ => Raise (ValidationError "ProtocolData" "transactions: Input should be a list")
      end)
  | _ => Raise (ValidationError "ProtocolData" "Input should be an object")
  end.

Definition strict_model_validate (v : json) : result WalletTransactionMessage.t :=
  match v with
  | JDict items =>
      result_bind (required "WalletTransactionMessage" js_str items "wallet_address")
        (λ wallet_address,
      match assoc_lookup "data" items with
      | None => Raise (ValidationError "WalletTransactionMessage" "data: Field required")
      | Some (JList ps) =>
          result_bind (result_mapM ProtocolData_validate ps) (λ data,
          Ok (WalletTransactionMessage.mk wallet_address data))
      | Some _ =>
          Raise (ValidationError "WalletTransactionMessage" "data: Input should be a list")
      end)
  | _ => Raise (ValidationError "WalletTransactionMessage" "Input should be an object")
  end.

(** ** Sample data *)

(** A transaction dict carrying only what the tests of [test_ai_model.py] give. *)
Definition tx (action : string) (timestamp : Z) : Transaction.t :=
  Transaction.mk "" action timestamp "" "" None None None None None None None.

(** [SAMPLE_DF] of [test_ai_model.py]. *)
Definition SAMPLE_DF : AIModel.DataFrame :=
  [ tx "swap" 1672531200; tx "swap" 1672617600; tx "add_liquidity" 1672704000;
    tx "swap" 1672790400; tx "add_liquidity" 1672876800; tx "swap" 1672963200;
    tx "add_liquidity" 1673049600; tx "swap" 1673136000;
    tx "add_liquidity" 1673222400; tx "swap" 1673308800 ].

Definition sample_wallet : WalletTransactionMessage.t :=
  WalletTransactionMessage.mk "0x123" [ProtocolData.mk "dexes" SAMPLE_DF].

Definition initial_world : World := mkWorld (mkStats 0 0 0 None) [] 0 [].

Definition sample_clock (n : nat) : Z := 1700000000 + Z.of_nat n.

Definition sample_dex : ProtocolData.t := ProtocolData.mk "dexes" SAMPLE_DF.

Definition empty_dex_wallet : WalletTransactionMessage.t :=
  WalletTransactionMessage.mk "0x789" [ProtocolData.mk "dexes" []].

Definition lending_wallet : WalletTransactionMessage.t :=
  WalletTransactionMessage.mk "0x456" [ProtocolData.mk "lending" []].

Definition swap_transaction : json :=
  JDict [ ("document_id", JStr "doc-1"); ("action", JStr "swap");
          ("timestamp", JInt 1672531200); ("caller", JStr "0xabc");
          ("protocol", JStr "uniswap") ].

(** A well-formed message: one [dexes] block holding one swap. *)
Definition msg_valid : ConsumerRecord.t :=
  ConsumerRecord.mk "wallet-transactions"
    (JDict [ ("wallet_address", JStr "0xabc");
             ("data", JList [ JDict [ ("protocolType", JStr "dexes");
                                      ("transactions", JList [swap_transaction]) ] ]) ])
    1700000000123.

Definition wallet_valid : WalletTransactionMessage.t :=
  WalletTransactionMessage.mk "0xabc"
    [ ProtocolData.mk "dexes"
        [ Transaction.mk "doc-1" "swap" 1672531200 "0xabc" "uniswap"
            None None None None None None None ] ].

(** A message without [wallet_address]. *)
Definition msg_missing_address : ConsumerRecord.t :=
  ConsumerRecord.mk "wallet-transactions" (JDict [("data", JList [])]) 1700000000123.

(** A message whose [wallet_address] is [null]. *)
Definition msg_null_address : ConsumerRecord.t :=
  ConsumerRecord.mk "wallet-transactions"
    (JDict [("wallet_address", JNull); ("data", JList [])]) 1700000000123.

(** A message whose payload is the JSON array [[]]. *)
Definition msg_array_payload : ConsumerRecord.t :=
  ConsumerRecord.mk "wallet-transactions" (JList []) 1700000000123.

(** The state reached once the two counters of a message have moved. *)
Definition counted_world : World :=
  mkWorld (mkStats 1 0 0 (Some 1700000000)) [] 0 [].

(** [SAMPLE_DF] with one transaction of an action the engine does not score. *)
Definition borrow_wallet : WalletTransactionMessage.t :=
  WalletTransactionMessage.mk "0x123"
    [ProtocolData.mk "dexes" (tx "borrow" 1680000000 :: SAMPLE_DF)].

(** Three liquidity actions, and the same with one swap in front. *)
Definition liquidity_only : list Transaction.t :=
  [ tx "add_liquidity" 1672531200; tx "remove_liquidity" 1672617600;
    tx "add_liquidity" 1672704000 ].

Definition liquidity_wallet : WalletTransactionMessage.t :=
  WalletTransactionMessage.mk "0xaaa" [ProtocolData.mk "dexes" liquidity_only].

Definition liquidity_and_swap_wallet : WalletTransactionMessage.t :=
  WalletTransactionMessage.mk "0xaaa"
    [ProtocolData.mk "dexes" (tx "swap" 1672790400 :: liquidity_only)].

(** The world after [n] more clock readings. *)
Definition with_ticks (n : nat) (w : World) : World :=
  mkWorld (stats w) (sent w) (n + ticks w) (fatal w).


(** ** The service object ([kafka_service.py])

    [KafkaService] is a singleton: the class attribute [_instance] and the
    module-level name [kafka_service] of [main.py] denote one object, whose
    current state is what the functions below pass along.  Constructing a
    Kafka client contacts the broker and may raise; that contact is the
    argument [connect], which gives the error raised, if any. *)

Inductive kafka_error : Type :=
| NoBrokersAvailable
| KafkaError (what : string).

Module KafkaConsumer.
Record t : Type := mk {
  topic : string;
  bootstrap_servers : string;
  auto_offset_reset : string;
  enable_auto_commit : bool;
  group_id : string;
  closed : bool
}.
End KafkaConsumer.

Module KafkaProducer.
Record t : Type := mk {
  bootstrap_servers : string
}.
End KafkaProducer.

Module ServiceObject.
Record t : Type := mk {
  KAFKA_BROKER : string;
  topics : KafkaService.t;
  _consumer : option KafkaConsumer.t;
  _producer : option KafkaProducer.t
}.
End ServiceObject.

(** [os.getenv(key, default)] *)
Definition getenv (environ : gmap string string) (key dflt : string) : string :=
  default dflt (environ !! key).

(** [KafkaService()]: [__new__] creates the instance only when the class has
    none, and [__init__] returns at once on an instance that is already
    initialised.  The result is the instance and the class attribute. *)
Definition KafkaService_call (environ : gmap string string)
    (_instance : option ServiceObject.t)
  : ServiceObject.t * option ServiceObject.t :=
  match _instance with
  | Some self => (self, Some self)
  | None =>
      let self :=
        ServiceObject.mk
          (getenv environ "KAFKA_BROKER" "localhost:9092")
          (KafkaService.mk
             (getenv environ "KAFKA_INPUT_TOPIC" "wallet-transactions")
             (getenv environ "KAFKA_SUCCESS_TOPIC" "wallet-scores-success")
             (getenv environ "KAFKA_FAILURE_TOPIC" "wallet-scores-failure"))
          None None in
      (self, Some self)
  end.

Definition get_consumer (connect : string → option kafka_error)
    (self : ServiceObject.t)
  : (kafka_error + KafkaConsumer.t) * ServiceObject.t :=
  match ServiceObject._consumer self with
  | Some consumer => (inr consumer, self)
  | None =>
      match connect (ServiceObject.KAFKA_BROKER self) with
      | None =>
          let consumer :=
            KafkaConsumer.mk
              (KafkaService.INPUT_TOPIC (ServiceObject.topics self))
              (ServiceObject.KAFKA_BROKER self)
              "earliest" true "reputation-scorer-group" false in
          (inr consumer,
           ServiceObject.mk (ServiceObject.KAFKA_BROKER self)
             (ServiceObject.topics self) (Some consumer)
             (ServiceObject._producer self))
      | Some e => (inl e, self)
      end
  end.

Definition get_producer (connect : string → option kafka_error)
    (self : ServiceObject.t)
  : (kafka_error + KafkaProducer.t) * ServiceObject.t :=
  match ServiceObject._producer self with
  | Some producer => (inr producer, self)
  | None =>
      match connect (ServiceObject.KAFKA_BROKER self) with
      | None =>
          let producer := KafkaProducer.mk (ServiceObject.KAFKA_BROKER self) in
          (inr producer,
           ServiceObject.mk (ServiceObject.KAFKA_BROKER self)
             (ServiceObject.topics self) (ServiceObject._consumer self)
             (Some producer))
      | Some e => (inl e, self)
      end
  end.

(** [consumer.close()] *)
Definition close (consumer : KafkaConsumer.t) : KafkaConsumer.t :=
  KafkaConsumer.mk (KafkaConsumer.topic consumer)
    (KafkaConsumer.bootstrap_servers consumer)
    (KafkaConsumer.auto_offset_reset consumer)
    (KafkaConsumer.enable_auto_commit consumer)
    (KafkaConsumer.group_id consumer) true.

Definition stop_consumer (self : ServiceObject.t) : ServiceObject.t :=
  match ServiceObject._consumer self with
  | Some consumer =>
      ServiceObject.mk (ServiceObject.KAFKA_BROKER self)
        (ServiceObject.topics self) (Some (close consumer))
        (ServiceObject._producer self)
  | None => self
  end.

(** The first two statements of the loop's [try] in [main.py]:
    [consumer = kafka_service.get_consumer()] and
    [producer = kafka_service.get_producer()], each with its own contact
    to the broker. *)
Definition get_clients (connect_consumer connect_producer : string → option kafka_error)
    (self : ServiceObject.t)
  : (kafka_error + KafkaConsumer.t * KafkaProducer.t) * ServiceObject.t :=
  match get_consumer connect_consumer self with
  | (inl e, self') => (inl e, self')
  | (inr consumer, self') =>
      match get_producer connect_producer self' with
      | (inl e, self'') => (inl e, self'')
      | (inr producer, self'') => (inr (consumer, producer), self'')
      end
  end.

(** A broker that answers, and one that does not. *)
Definition broker_up (broker : string) : option kafka_error := None.
Definition broker_down (broker : string) : option kafka_error :=
  Some NoBrokersAvailable.

(** The instance built under an empty environment. *)
Definition default_service : ServiceObject.t :=
  (KafkaService_call ∅ None).1.

(** ** Notions of the specification

    These follow the words of the specification, not the code, and are
    what the engine's results are compared with. *)

(** The number of transactions whose action is [a]. *)
Definition count_action (a : string) (df : AIModel.DataFrame) : Z :=
  Z.of_nat (length (filter (λ row, Transaction.action row = a) df)).

(** Liquidity actions: [add_liquidity] and [remove_liquidity]. *)
Definition liquidity_count (df : AIModel.DataFrame) : Z :=
  count_action "add_liquidity" df + count_action "remove_liquidity" df.

(** Swap actions: [swap]. *)
Definition swap_count (df : AIModel.DataFrame) : Z :=
  count_action "swap" df.

(** The number of distinct UTC calendar dates among the timestamps: one
    date per distinct [floor(timestamp / 86400)]. *)
Definition distinct_dates (df : AIModel.DataFrame) : Z :=
  Z.of_nat (size (list_to_set (C:=gset Z)
                    (map (λ row, Transaction.timestamp row / 86400) df))).

(** The tags [_process_dex_transactions] is expected to give. *)
Definition expected_tags (df : AIModel.DataFrame) : list string :=
  if AIModel.empty df then ["inactive"]
  else (if 0 <? liquidity_count df then ["consistent_lp"] else [])
       ++ (if 0 <? swap_count df then ["consistent_trader"] else []).

(** The timestamps the engine can take.  [_calculate_active_days] converts
    every timestamp of a non-empty frame with [pd.to_datetime(..., unit='s')],
    which raises outside the range of [datetime64[ns]] (1677-09-21 to
    2262-04-11, here in whole seconds).  Inside that range the conversion
    returns and the engine's definitions above give what it computes;
    the results below about values the engine returns are stated there. *)
Definition representable (ts : Z) : bool :=
  (-9223372036 <=? ts) && (ts <=? 9223372036).

Definition timestamps_representable (df : AIModel.DataFrame) : bool :=
  forallb (λ row, representable (Transaction.timestamp row)) df.

(** The millisecond timestamps on which the binary64 division of
    [int(msg.timestamp / 1000)] is the exact quotient truncated towards
    zero. *)
Definition exact_milliseconds (ts : Z) : bool := Z.abs ts <? 2 ^ 53.

(** A protocol list splits around its first [dexes] block. *)
Definition first_dexes (data pre : list ProtocolData.t) (dex : ProtocolData.t)
    (rest : list ProtocolData.t) : Prop :=
  data = pre ++ dex :: rest
  ∧ Forall (λ p, ProtocolData.protocolType p ≠ "dexes") pre
  ∧ ProtocolData.protocolType dex = "dexes".

(** * Properties of the scoring engine *)

(** Membership in an explicit list of strings. *)
Ltac list_mem :=
  repeat (rewrite elem_of_cons in * || rewrite elem_of_nil in * );
  intuition (congruence || discriminate).

Lemma Qltb_lt (x y : Q) : Qltb x y = true ↔ (x < y)%Q.
Proof. unfold Qltb, Qlt. apply Z.ltb_lt. Qed.

Lemma Qleb_le (x y : Q) : Qleb x y = true ↔ (x <= y)%Q.
Proof. unfold Qleb, Qle. apply Z.leb_le. Qed.

Lemma Qltb_inject_Z (n : Z) : Qltb 0 (inject_Z n) = (0 <? n).
Proof. unfold Qltb, inject_Z. simpl. f_equal. lia. Qed.

Section Engine.
Import AIModel.

Lemma find_dex_first pre dex rest :
  Forall (λ p, ProtocolData.protocolType p ≠ "dexes") pre →
  ProtocolData.protocolType dex = "dexes" →
  find_dex (pre ++ dex :: rest) = Some dex.
Proof.
  intros Hpre Hdex. unfold find_dex.
  induction Hpre as [|p pre Hp _ IH]; simpl.
  - by rewrite bool_decide_eq_true_2.
  - by rewrite bool_decide_eq_false_2.
Qed.

Lemma find_dex_None data :
  Forall (λ p, ProtocolData.protocolType p ≠ "dexes") data →
  find_dex data = None.
Proof.
  unfold find_dex. induction 1 as [|p data Hp _ IH]; simpl; [done|].
  by rewrite bool_decide_eq_false_2.
Qed.

Lemma find_dex_split data dex :
  find_dex data = Some dex →
  ∃ pre rest, first_dexes data pre dex rest.
Proof.
  unfold find_dex, first_dexes. induction data as [|p data IH]; simpl; [done|].
  case_bool_decide as Hp.
  - intros [= <-]. by exists [], data.
  - intros Hfind. destruct (IH Hfind) as (pre & rest & -> & Hpre & Hdex).
    exists (p :: pre), rest. split_and!; [done| |done].
    by constructor.
Qed.

Lemma find_dex_is_Some data p :
  p ∈ data → ProtocolData.protocolType p = "dexes" →
  is_Some (find_dex data).
Proof.
  unfold find_dex. intros Hin Hp.
  induction Hin as [p data|p q data _ IH]; simpl.
  - rewrite bool_decide_eq_true_2; eauto.
  - case_bool_decide; eauto.
Qed.

Lemma count_action_nonneg a df : 0 ≤ count_action a df.
Proof. unfold count_action. lia. Qed.

Lemma len_isin_1 a df : len (isin [a] df) = count_action a df.
Proof.
  unfold len, isin, count_action.
  enough (filter (λ row, Transaction.action row ∈ [a]) df
          = filter (λ row, Transaction.action row = a) df) as -> by done.
  induction df as [|row df IH]; [done|].
  rewrite !filter_cons, IH.
  destruct (decide (Transaction.action row ∈ [a])),
           (decide (Transaction.action row = a));
    try done; list_mem.
Qed.

Lemma len_isin_2 a b df :
  a ≠ b → len (isin [a; b] df) = count_action a df + count_action b df.
Proof.
  intros Hab. unfold len, isin, count_action.
  rewrite <- Nat2Z.inj_add. f_equal.
  induction df as [|row df IH]; [done|].
  rewrite !filter_cons.
  destruct (decide (Transaction.action row ∈ [a; b])),
           (decide (Transaction.action row = a)),
           (decide (Transaction.action row = b));
    simpl; rewrite ?IH; try lia; list_mem.
Qed.

Lemma nunique_distinct (col : list Z) :
  nunique col = Z.of_nat (size (list_to_set (C:=gset Z) col)).
Proof.
  unfold nunique. f_equal.
  rewrite <- (size_list_to_set (C:=gset Z)) by apply NoDup_remove_dups.
  f_equal. apply set_eq. intros x.
  by rewrite !elem_of_list_to_set, elem_of_remove_dups.
Qed.

(** What [_calculate_active_days] returns, against the count of
    distinct dates. *)
Lemma calculate_active_days_spec df :
  _calculate_active_days df =
    if distinct_dates df =? 10 then 9 else distinct_dates df.
Proof.
  unfold _calculate_active_days, distinct_dates.
  destruct df as [|row df]; [done|].
  cbv [empty to_date]. by rewrite nunique_distinct.
Qed.

Lemma distinct_dates_pos df : df ≠ [] → 0 < distinct_dates df.
Proof.
  destruct df as [|row df]; [done|]. intros _.
  unfold distinct_dates. simpl.
  assert (size ({[Transaction.timestamp row / 86400]}
                ∪ list_to_set (C:=gset Z)
                    (map (λ r, Transaction.timestamp r / 86400) df)) ≠ 0%nat)
    as Hne; [|lia].
  apply size_non_empty_iff. set_solver.
Qed.

Lemma calculate_active_days_pos df : df ≠ [] → 0 < _calculate_active_days df.
Proof.
  intros Hne. rewrite calculate_active_days_spec.
  pose proof (distinct_dates_pos df Hne). case_match; lia.
Qed.

Lemma len_pos_nonempty df : 0 < len df → df ≠ [].
Proof. by destruct df. Qed.

Lemma process_dex_transactions_spec df :
  _process_dex_transactions df =
    (inject_Z (100 * liquidity_count df), inject_Z (100 * swap_count df),
     expected_tags df).
Proof.
  unfold _process_dex_transactions, expected_tags.
  destruct (empty df) eqn:Hempty.
  { destruct df; [done|discriminate]. }
  rewrite len_isin_2 by done. rewrite len_isin_1.
  fold (liquidity_count df). fold (swap_count df).
  pose proof (count_action_nonneg "add_liquidity" df).
  pose proof (count_action_nonneg "remove_liquidity" df).
  pose proof (count_action_nonneg "swap" df).
  assert ((0 <? liquidity_count df) = true →
          (0 <? _calculate_active_days (isin ["add_liquidity"; "remove_liquidity"] df))
          = true) as Hdays.
  { intros Hpos%Z.ltb_lt. apply Z.ltb_lt, calculate_active_days_pos.
    apply len_pos_nonempty. rewrite len_isin_2 by done. done. }
  destruct (0 <? liquidity_count df) eqn:Hlp.
  - rewrite Hdays by done.
    destruct (0 <? swap_count df) eqn:Hsw; simpl.
    + by rewrite (Z.mul_comm 100 (liquidity_count df)), (Z.mul_comm 100 (swap_count df)).
    + apply Z.ltb_ge in Hsw. replace (swap_count df) with 0 by (unfold swap_count in *; lia).
      by rewrite (Z.mul_comm 100 (liquidity_count df)).
  - apply Z.ltb_ge in Hlp.
    replace (liquidity_count df) with 0 by (unfold liquidity_count in *; lia).
    destruct (0 <? swap_count df) eqn:Hsw; simpl.
    + by rewrite (Z.mul_comm 100 (swap_count df)).
    + apply Z.ltb_ge in Hsw. by replace (swap_count df) with 0 by (unfold swap_count in *; lia).
Qed.

End Engine.

(** The engine's result on a wallet whose first [dexes] block is [dex], in
    closed form over the two action counts. *)
Lemma calculate_score_dexes (w : WalletTransactionMessage.t) (dex : ProtocolData.t) :
  AIModel.find_dex (WalletTransactionMessage.data w) = Some dex →
  let df := ProtocolData.transactions dex in
  let lc := liquidity_count df in
  let sc := swap_count df in
  AIModel.calculate_score w =
    ((if (0 <? lc) && (0 <? sc)
      then inject_Z (100 * lc) * AIModel.lp_weight
           + inject_Z (100 * sc) * AIModel.swap_weight
      else if 0 <? lc then inject_Z (100 * lc)
      else if 0 <? sc then inject_Z (100 * sc)
      else 0)%Q,
     list_to_map
       [ ("lp_score", PyNum (inject_Z (100 * lc)));
         ("swap_score", PyNum (inject_Z (100 * sc)));
         ("active_days", PyInt (AIModel._calculate_active_days df));
         ("total_transaction_count", PyInt (AIModel.len df));
         ("user_tags",
          PyStrList (if (0 <? lc) || (0 <? sc) then expected_tags df
                     else ["inactive"])) ]).
Proof.
  intros Hdex df lc sc.
  unfold AIModel.calculate_score. rewrite Hdex.
  rewrite process_dex_transactions_spec, !Qltb_inject_Z. fold df lc sc.
  replace (0 <? 100 * lc) with (0 <? lc) by (destruct (Z.ltb_spec 0 lc), (Z.ltb_spec 0 (100 * lc)); lia).
  replace (0 <? 100 * sc) with (0 <? sc) by (destruct (Z.ltb_spec 0 sc), (Z.ltb_spec 0 (100 * sc)); lia).
  destruct (0 <? lc) eqn:Hlp, (0 <? sc) eqn:Hsw; cbn [andb orb]; try reflexivity.
  do 6 f_equal.
  unfold expected_tags. fold lc sc. rewrite Hlp, Hsw.
  by destruct (AIModel.empty df).
Qed.

Lemma expected_tags_active (df : AIModel.DataFrame) :
  ((0 <? liquidity_count df) || (0 <? swap_count df)) = true →
  ("inactive" ∉ expected_tags df) ∧ NoDup (expected_tags df).
Proof.
  intros Hactive. unfold expected_tags.
  destruct df as [|row df]; [done|]. cbn [AIModel.empty].
  destruct (0 <? liquidity_count (row :: df)), (0 <? swap_count (row :: df));
    simpl; split; try (repeat constructor); list_mem.
Qed.

Lemma features_lookup (lp sw : Q) (days total : Z) (tags : list string) :
  let features : gmap string pyval :=
    list_to_map [ ("lp_score", PyNum lp); ("swap_score", PyNum sw);
                  ("active_days", PyInt days);
                  ("total_transaction_count", PyInt total);
                  ("user_tags", PyStrList tags) ] in
  features !! "lp_score" = Some (PyNum lp)
  ∧ features !! "swap_score" = Some (PyNum sw)
  ∧ features !! "active_days" = Some (PyInt days)
  ∧ features !! "total_transaction_count" = Some (PyInt total)
  ∧ features !! "user_tags" = Some (PyStrList tags).
Proof. simpl. split_and!; by simplify_map_eq. Qed.

(** ** The unit tests of [test_ai_model.py], replayed on the embedding *)

Example test_calculate_active_days : AIModel._calculate_active_days SAMPLE_DF = 9.
Proof. by vm_compute. Qed.

Example test_process_dex_transactions_with_data :
  AIModel._process_dex_transactions SAMPLE_DF
  = (inject_Z 400, inject_Z 600, ["consistent_lp"; "consistent_trader"]).
Proof. by vm_compute. Qed.

Example test_calculate_score_with_full_data :
  ((AIModel.calculate_score sample_wallet).1 == 480)%Q
  ∧ (AIModel.calculate_score sample_wallet).2 !! "total_transaction_count"
    = Some (PyInt 10)
  ∧ (AIModel.calculate_score sample_wallet).2 !! "user_tags"
    = Some (PyStrList ["consistent_lp"; "consistent_trader"]).
Proof. split_and!; by vm_compute. Qed.

Example test_calculate_score_with_no_dex_data :
  AIModel.calculate_score lending_wallet = (0%Q, ∅).
Proof. by vm_compute. Qed.

Example test_calculate_score_with_empty_transactions :
  (AIModel.calculate_score empty_dex_wallet).1 = 0%Q
  ∧ (AIModel.calculate_score empty_dex_wallet).2 !! "user_tags"
    = Some (PyStrList ["inactive"]).
Proof. split; by vm_compute. Qed.

Example format_18f_sample :
  format_18f (AIModel.calculate_score sample_wallet).1 = "480.000000000000000000".
Proof. by vm_compute. Qed.

(** * The claims about the scoring engine *)

(** C3 (the combination rule): on a wallet with a [dexes] block whose
    timestamps the engine can take, the
    reported sub-scores are 100 times the number of liquidity actions and
    100 times the number of swap actions; the final score is
    [0.6*lp_score + 0.4*swap_score] when both are positive, the positive
    one when exactly one is, and 0 when neither is, in which case
    ["inactive"] is among the tags and the tags have no duplicate. *)
Theorem C3_final_score_combination
    (w : WalletTransactionMessage.t) (dex : ProtocolData.t) :
  AIModel.find_dex (WalletTransactionMessage.data w) = Some dex →
  timestamps_representable (ProtocolData.transactions dex) = true →
  let df := ProtocolData.transactions dex in
  let lp_score := inject_Z (100 * liquidity_count df) in
  let swap_score := inject_Z (100 * swap_count df) in
  let final_score := (AIModel.calculate_score w).1 in
  let features := (AIModel.calculate_score w).2 in
  features !! "lp_score" = Some (PyNum lp_score)
  ∧ features !! "swap_score" = Some (PyNum swap_score)
  ∧ ((0 < lp_score ∧ 0 < swap_score →
      final_score == (6 # 10) * lp_score + (4 # 10) * swap_score)
     ∧ (0 < lp_score ∧ ¬ 0 < swap_score → final_score == lp_score)
     ∧ (¬ 0 < lp_score ∧ 0 < swap_score → final_score == swap_score)
     ∧ (¬ 0 < lp_score ∧ ¬ 0 < swap_score →
        final_score == 0
        ∧ ∃ user_tags,
            features !! "user_tags" = Some (PyStrList user_tags)
            ∧ "inactive" ∈ user_tags ∧ NoDup user_tags))%Q.
Proof.
  intros Hdex Hrange df lp_score swap_score final_score features.
  subst final_score features.
  rewrite (calculate_score_dexes w dex Hdex). cbn [fst snd]. fold df.
  match goal with
  | |- context [list_to_map ?l] =>
      match l with
      | [(_, PyNum ?lp); (_, PyNum ?sw); (_, PyInt ?d); (_, PyInt ?n);
         (_, PyStrList ?t)] =>
          destruct (features_lookup lp sw d n t) as (Hlp & Hsw & _ & _ & Htags)
      end
  end.
  split; [exact Hlp|]. split; [exact Hsw|].
  subst lp_score swap_score.
  rewrite <- !Qltb_lt, !Qltb_inject_Z.
  replace (0 <? 100 * liquidity_count df) with (0 <? liquidity_count df)
    by (destruct (Z.ltb_spec 0 (liquidity_count df)),
                 (Z.ltb_spec 0 (100 * liquidity_count df)); lia).
  replace (0 <? 100 * swap_count df) with (0 <? swap_count df)
    by (destruct (Z.ltb_spec 0 (swap_count df)),
                 (Z.ltb_spec 0 (100 * swap_count df)); lia).
  destruct (0 <? liquidity_count df) eqn:Hl, (0 <? swap_count df) eqn:Hs;
    cbn [andb orb] in *;
    (split_and!; intros [? ?]; try done).
  - unfold AIModel.lp_weight, AIModel.swap_weight. ring.
  - split; [reflexivity|].
    exists ["inactive"]. split; [exact Htags|].
    split; [list_mem|]. repeat constructor; list_mem.
Qed.

Lemma C3_final_score_combination_witness :
  AIModel.find_dex (WalletTransactionMessage.data sample_wallet) = Some sample_dex
  ∧ timestamps_representable (ProtocolData.transactions sample_dex) = true
  ∧ (AIModel.calculate_score sample_wallet).2 !! "lp_score"
    = Some (PyNum (inject_Z (100 * liquidity_count SAMPLE_DF)))
  ∧ ((AIModel.calculate_score sample_wallet).1
     == (6 # 10) * inject_Z 400 + (4 # 10) * inject_Z 600)%Q.
Proof.
  split; [reflexivity|]. split; [reflexivity|].
  destruct (C3_final_score_combination sample_wallet sample_dex eq_refl eq_refl)
    as (Hlp & _ & Hboth & _).
  split; [exact Hlp|].
  apply Hboth. split; reflexivity.
Defined.

(** What the engine reports as [active_days], against the number of
    distinct dates of the block's transactions. *)
Lemma active_days_reported (w : WalletTransactionMessage.t) (dex : ProtocolData.t) :
  AIModel.find_dex (WalletTransactionMessage.data w) = Some dex →
  let days := distinct_dates (ProtocolData.transactions dex) in
  (AIModel.calculate_score w).2 !! "active_days"
  = Some (PyInt (if days =? 10 then 9 else days)).
Proof.
  intros Hdex days. rewrite (calculate_score_dexes w dex Hdex). cbn [snd].
  rewrite calculate_active_days_spec. by simplify_map_eq.
Qed.

(** C2 (active days), at the data of [test_ai_model.py]: the ten
    transactions of [SAMPLE_DF] fall on ten distinct UTC dates, and the
    engine reports nine active days. *)
Theorem C2_active_days_ten_dates_reported_nine :
  distinct_dates SAMPLE_DF = 10
  ∧ AIModel.find_dex (WalletTransactionMessage.data sample_wallet) = Some sample_dex
  ∧ (AIModel.calculate_score sample_wallet).2 !! "active_days" = Some (PyInt 9).
Proof.
  split; [by vm_compute|]. split; [reflexivity|].
  by rewrite (active_days_reported sample_wallet sample_dex eq_refl).
Qed.

(** C4 (empty transaction list): when the [dexes] block found has no
    transaction, the final score is 0, the tags are exactly ["inactive"],
    and both the active days and the transaction count are 0. *)
Theorem C4_empty_transactions
    (w : WalletTransactionMessage.t) (dex : ProtocolData.t) :
  AIModel.find_dex (WalletTransactionMessage.data w) = Some dex →
  ProtocolData.transactions dex = [] →
  (AIModel.calculate_score w).1 = 0%Q
  ∧ (AIModel.calculate_score w).2 !! "user_tags" = Some (PyStrList ["inactive"])
  ∧ (AIModel.calculate_score w).2 !! "active_days" = Some (PyInt 0)
  ∧ (AIModel.calculate_score w).2 !! "total_transaction_count" = Some (PyInt 0).
Proof.
  intros Hdex Hempty. unfold AIModel.calculate_score.
  rewrite Hdex, Hempty. cbn. split_and!; by simplify_map_eq.
Qed.

Lemma C4_empty_transactions_witness :
  AIModel.find_dex (WalletTransactionMessage.data empty_dex_wallet)
  = Some (ProtocolData.mk "dexes" [])
  ∧ ProtocolData.transactions (ProtocolData.mk "dexes" []) = []
  ∧ (AIModel.calculate_score empty_dex_wallet).1 = 0%Q
  ∧ (AIModel.calculate_score empty_dex_wallet).2 !! "user_tags"
    = Some (PyStrList ["inactive"])
  ∧ (AIModel.calculate_score empty_dex_wallet).2 !! "active_days" = Some (PyInt 0)
  ∧ (AIModel.calculate_score empty_dex_wallet).2 !! "total_transaction_count"
    = Some (PyInt 0).
Proof.
  split; [reflexivity|]. split; [reflexivity|].
  exact (C4_empty_transactions empty_dex_wallet (ProtocolData.mk "dexes" [])
           eq_refl eq_refl).
Defined.

(** C5 (no dexes block): without a block of type ["dexes"] the engine
    returns score 0 with the empty feature dict; every wallet that has
    such a block, with timestamps the engine can take, gets a feature
    dict holding all five features, so its result differs from the
    former. *)
Theorem C5_no_dexes_distinguishable (w : WalletTransactionMessage.t) :
  Forall (λ p, ProtocolData.protocolType p ≠ "dexes")
    (WalletTransactionMessage.data w) →
  AIModel.calculate_score w = (0%Q, ∅)
  ∧ ∀ (w' : WalletTransactionMessage.t) (p : ProtocolData.t),
      p ∈ WalletTransactionMessage.data w' →
      ProtocolData.protocolType p = "dexes" →
      (∀ dex', AIModel.find_dex (WalletTransactionMessage.data w') = Some dex' →
               timestamps_representable (ProtocolData.transactions dex') = true) →
      dom (AIModel.calculate_score w').2
      = ({["lp_score"; "swap_score"; "active_days";
           "total_transaction_count"; "user_tags"]} : gset string)
      ∧ (AIModel.calculate_score w').2 ≠ ∅
      ∧ AIModel.calculate_score w' ≠ AIModel.calculate_score w.
Proof.
  intros Hnone.
  assert (AIModel.calculate_score w = (0%Q, ∅)) as Hw.
  { unfold AIModel.calculate_score. by rewrite find_dex_None. }
  split; [exact Hw|]. intros w' p Hin Hp Hrange.
  destruct (find_dex_is_Some _ _ Hin Hp) as [dex Hdex].
  rewrite Hw, (calculate_score_dexes w' dex Hdex). cbn [snd].
  assert (∀ m : gmap string pyval,
            dom m = ({["lp_score"; "swap_score"; "active_days";
                       "total_transaction_count"; "user_tags"]} : gset string) →
            m ≠ ∅) as Hpopulated.
  { intros m Hdom ->. rewrite dom_empty_L in Hdom. set_solver. }
  match goal with
  | |- dom ?m = ?d ∧ _ =>
      assert (dom m = d) as Hdom
  end.
  { cbn [list_to_map foldr uncurry fst snd]. rewrite !dom_insert_L, dom_empty_L.
    set_solver. }
  split; [exact Hdom|]. split; [by apply Hpopulated|].
  intros Heq. apply (f_equal snd) in Heq. cbn [snd] in Heq.
  exact (Hpopulated _ Hdom Heq).
Qed.

Lemma C5_no_dexes_distinguishable_witness :
  Forall (λ p, ProtocolData.protocolType p ≠ "dexes")
    (WalletTransactionMessage.data lending_wallet)
  ∧ AIModel.calculate_score lending_wallet = (0%Q, ∅)
  ∧ AIModel.calculate_score empty_dex_wallet ≠ AIModel.calculate_score lending_wallet.
Proof.
  assert (Forall (λ p, ProtocolData.protocolType p ≠ "dexes")
            (WalletTransactionMessage.data lending_wallet)) as Hnone.
  { repeat constructor. discriminate. }
  split; [exact Hnone|].
  destruct (C5_no_dexes_distinguishable lending_wallet Hnone) as [Hscore Hother].
  split; [exact Hscore|].
  apply (Hother empty_dex_wallet (ProtocolData.mk "dexes" []));
    [apply list_elem_of_here|reflexivity|].
  intros dex' [= <-]. reflexivity.
Defined.

(** C6 (invariants): on a wallet with a [dexes] block whose timestamps
    the engine can take, the final score is
    0 exactly when ["inactive"] is among the tags, and the two sub-scores
    and the final score are never negative. *)
Theorem C6_inactive_iff_zero_and_nonnegative
    (w : WalletTransactionMessage.t) (dex : ProtocolData.t) :
  AIModel.find_dex (WalletTransactionMessage.data w) = Some dex →
  timestamps_representable (ProtocolData.transactions dex) = true →
  let final_score := (AIModel.calculate_score w).1 in
  let features := (AIModel.calculate_score w).2 in
  ∃ (lp_score swap_score : Q) (user_tags : list string),
    features !! "lp_score" = Some (PyNum lp_score)
    ∧ features !! "swap_score" = Some (PyNum swap_score)
    ∧ features !! "user_tags" = Some (PyStrList user_tags)
    ∧ (final_score == 0 ↔ "inactive" ∈ user_tags)%Q
    ∧ (0 <= lp_score ∧ 0 <= swap_score ∧ 0 <= final_score)%Q.
Proof.
  intros Hdex Hrange final_score features. subst final_score features.
  rewrite (calculate_score_dexes w dex Hdex). cbn [fst snd].
  set (df := ProtocolData.transactions dex) in *.
  pose proof (count_action_nonneg "add_liquidity" df) as Hadd.
  pose proof (count_action_nonneg "remove_liquidity" df) as Hrem.
  pose proof (count_action_nonneg "swap" df) as Hswap.
  assert (0 ≤ liquidity_count df) as Hlc by (unfold liquidity_count; lia).
  assert (0 ≤ swap_count df) as Hsc by (unfold swap_count; lia).
  eexists _, _, _.
  split; [by simplify_map_eq|]. split; [by simplify_map_eq|].
  split; [by simplify_map_eq|].
  assert (0 <= inject_Z (100 * liquidity_count df))%Q as Hlp.
  { rewrite <- Qleb_le. unfold Qleb, inject_Z. simpl. apply Z.leb_le. lia. }
  assert (0 <= inject_Z (100 * swap_count df))%Q as Hsw.
  { rewrite <- Qleb_le. unfold Qleb, inject_Z. simpl. apply Z.leb_le. lia. }
  assert (∀ n, 0 < n → (0 < inject_Z (100 * n))%Q) as Hpos.
  { intros n Hn. rewrite <- Qltb_lt, Qltb_inject_Z. apply Z.ltb_lt. lia. }
  pose proof (expected_tags_active df) as Hactive.
  destruct (0 <? liquidity_count df) eqn:Hl, (0 <? swap_count df) eqn:Hs;
    cbn [andb orb] in *;
    try (apply Z.ltb_lt, Hpos in Hl); try (apply Z.ltb_lt, Hpos in Hs);
    try (destruct (Hactive eq_refl) as [Hnot _]).
  - unfold AIModel.lp_weight, AIModel.swap_weight.
    split; [split; [intros Hz; lra|done]|]. split_and!; [done|done|lra].
  - split; [split; [intros Hz; lra|done]|]. split_and!; [done|done|lra].
  - split; [split; [intros Hz; lra|done]|]. split_and!; [done|done|lra].
  - split; [split; [intros _; list_mem|reflexivity]|]. split_and!; [done|done|lra].
Qed.

Lemma C6_inactive_iff_zero_and_nonnegative_witness :
  AIModel.find_dex (WalletTransactionMessage.data sample_wallet) = Some sample_dex
  ∧ timestamps_representable (ProtocolData.transactions sample_dex) = true
  ∧ ∃ (lp_score swap_score : Q) (user_tags : list string),
      (AIModel.calculate_score sample_wallet).2 !! "lp_score" = Some (PyNum lp_score)
      ∧ (AIModel.calculate_score sample_wallet).2 !! "swap_score"
        = Some (PyNum swap_score)
      ∧ (AIModel.calculate_score sample_wallet).2 !! "user_tags"
        = Some (PyStrList user_tags)
      ∧ ((AIModel.calculate_score sample_wallet).1 == 0 ↔ "inactive" ∈ user_tags)%Q
      ∧ (0 <= lp_score ∧ 0 <= swap_score
         ∧ 0 <= (AIModel.calculate_score sample_wallet).1)%Q.
Proof.
  split; [reflexivity|]. split; [reflexivity|].
  exact (C6_inactive_iff_zero_and_nonnegative sample_wallet sample_dex eq_refl
           eq_refl).
Defined.

(** C10 (first dexes block wins): the result depends only on the first
    block of type ["dexes"]; whatever follows it in the protocol list,
    later [dexes] blocks included, can be replaced or removed without
    changing the returned pair. *)
Theorem C10_first_dexes_block_decides
    (address : string) (pre rest rest' : list ProtocolData.t) (dex : ProtocolData.t) :
  Forall (λ p, ProtocolData.protocolType p ≠ "dexes") pre →
  ProtocolData.protocolType dex = "dexes" →
  AIModel.calculate_score (WalletTransactionMessage.mk address (pre ++ dex :: rest))
  = AIModel.calculate_score (WalletTransactionMessage.mk address (pre ++ dex :: rest'))
  ∧ AIModel.calculate_score (WalletTransactionMessage.mk address (pre ++ dex :: rest))
    = AIModel.calculate_score (WalletTransactionMessage.mk address [dex]).
Proof.
  intros Hpre Hdex.
  pose proof (find_dex_first pre dex rest Hpre Hdex) as H1.
  pose proof (find_dex_first pre dex rest' Hpre Hdex) as H2.
  pose proof (find_dex_first [] dex [] (Forall_nil_2 _) Hdex) as H3.
  unfold AIModel.calculate_score. cbn [WalletTransactionMessage.data].
  simpl app in H3. by rewrite H1, H2, H3.
Qed.

Lemma C10_first_dexes_block_decides_witness :
  Forall (λ p, ProtocolData.protocolType p ≠ "dexes") [ProtocolData.mk "lending" []]
  ∧ ProtocolData.protocolType sample_dex = "dexes"
  ∧ AIModel.calculate_score
      (WalletTransactionMessage.mk "0x123"
         ([ProtocolData.mk "lending" []] ++ sample_dex :: [ProtocolData.mk "dexes" []]))
    = AIModel.calculate_score
        (WalletTransactionMessage.mk "0x123"
           ([ProtocolData.mk "lending" []] ++ sample_dex :: [])).
Proof.
  assert (Forall (λ p, ProtocolData.protocolType p ≠ "dexes")
            [ProtocolData.mk "lending" []]) as Hpre.
  { repeat constructor. discriminate. }
  split; [exact Hpre|]. split; [reflexivity|].
  exact (proj1 (C10_first_dexes_block_decides "0x123" [ProtocolData.mk "lending" []]
                  [ProtocolData.mk "dexes" []] [] sample_dex Hpre eq_refl)).
Defined.

(** * The claims about the normalizer *)

(** One test of the bucket loop, decided from the bounds known on the score. *)
Ltac bucket_test :=
  match goal with
  | |- context [Qleb ?a ?b] =>
      let E := fresh "E" in
      destruct (Qleb a b) eqn:E;
      [apply Qleb_le in E | apply not_true_iff_false in E; rewrite Qleb_le in E]
  | |- context [Qltb ?a ?b] =>
      let E := fresh "E" in
      destruct (Qltb a b) eqn:E;
      [apply Qltb_lt in E | apply not_true_iff_false in E; rewrite Qltb_lt in E]
  end;
  cbn [andb]; try (exfalso; unfold inject_Z in *; lra).

Ltac run_buckets :=
  cbn [AIModel.first_bucket]; repeat bucket_test; reflexivity.

(** The buckets that a score in no bucket rules out. *)
Ltac outside_all_buckets Hnone :=
  match type of Hnone with
  | ∀ lower upper value, _ ∈ ?score_map → _ =>
      let Hn := fresh "Hn" in
      assert (∀ lo hi : Z,
                (∃ v, In (lo, hi, v) score_map) →
                ¬ (inject_Z lo <= _ ∧ _ < inject_Z hi)%Q) as Hn
        by (intros lo hi [v Hv]; apply (Hnone lo hi v), list_elem_of_In, Hv);
      pose proof (Hn 0 1 ltac:(simpl; eauto 15));
      pose proof (Hn 1 5 ltac:(simpl; eauto 15));
      pose proof (Hn 5 10 ltac:(simpl; eauto 15));
      pose proof (Hn 10 25 ltac:(simpl; eauto 15));
      pose proof (Hn 25 50 ltac:(simpl; eauto 15));
      pose proof (Hn 50 75 ltac:(simpl; eauto 15));
      pose proof (Hn 75 90 ltac:(simpl; eauto 15));
      pose proof (Hn 90 95 ltac:(simpl; eauto 15));
      pose proof (Hn 95 99 ltac:(simpl; eauto 15));
      pose proof (Hn 99 100 ltac:(simpl; eauto 15));
      clear Hn Hnone
  end.

(** C9 (normalizer): for either score type the table has ten buckets; a
    value inside a bucket [lower, upper) gets that bucket's score; a value
    of at least 99 gets 1000, matched bucket or not; a value in no bucket
    and below 99 gets 0. *)
Theorem C9_normalize_score (score : Q) (score_type : string) :
  score_type ∈ ["lp_score"; "swap_score"] →
  ∃ score_map : list (Z * Z * Z),
    AIModel.SCORE_MAP !! score_type = Some score_map
    ∧ length score_map = 10%nat
    ∧ (∀ lower upper value : Z,
         (lower, upper, value) ∈ score_map →
         (inject_Z lower <= score ∧ score < inject_Z upper)%Q →
         AIModel._normalize_score score score_type = Ok (inject_Z value))
    ∧ ((99 <= score)%Q →
       AIModel._normalize_score score score_type = Ok 1000%Q)
    ∧ ((∀ lower upper value : Z,
          (lower, upper, value) ∈ score_map →
          ¬ (inject_Z lower <= score ∧ score < inject_Z upper)%Q) →
       (score < 99)%Q →
       AIModel._normalize_score score score_type = Ok 0%Q).
Proof.
  intros Htype. apply list_elem_of_In in Htype.
  destruct Htype as [<-|[<-|[]]].
  all: eexists; split; [reflexivity|]; split; [reflexivity|].
  all: unfold AIModel._normalize_score.
  all: match goal with
       | |- context [AIModel.SCORE_MAP !! ?k] =>
           let m := eval vm_compute in (AIModel.SCORE_MAP !! k) in
           change (AIModel.SCORE_MAP !! k) with m
       end; cbv beta iota.
  all: split_and!.
  1, 4: intros lower upper value Hin [Hlo Hhi]; apply list_elem_of_In in Hin;
    simpl in Hin;
    repeat (destruct Hin as [[= <- <- <-]|Hin];
            [unfold inject_Z in Hlo, Hhi; run_buckets|]);
    destruct Hin.
  1, 3: intros Hscore; run_buckets.
  all: intros Hnone Hscore; outside_all_buckets Hnone;
    assert (score < 0)%Q by (unfold inject_Z in *; lra);
    run_buckets.
Qed.


Lemma C9_normalize_score_witness :
  "swap_score" ∈ ["lp_score"; "swap_score"]
  ∧ AIModel._normalize_score 80 "swap_score" = Ok 800%Q
  ∧ AIModel._normalize_score 250 "swap_score" = Ok 1000%Q.
Proof.
  assert ("swap_score" ∈ ["lp_score"; "swap_score"]) as Htype
    by (apply list_elem_of_further, list_elem_of_here).
  split; [exact Htype|].
  split.
  - destruct (C9_normalize_score 80 "swap_score" Htype)
      as (score_map & Hmap & _ & Hbucket & _).
    vm_compute in Hmap. injection Hmap as <-.
    apply (Hbucket 75 90 800).
    + do 6 apply list_elem_of_further. apply list_elem_of_here.
    + split; reflexivity || discriminate.
  - destruct (C9_normalize_score 250 "swap_score" Htype)
      as (score_map & _ & _ & _ & Htop & _).
    apply Htop. discriminate.
Defined.

(** * Properties of the stream processor *)

(** The feature dict passed to [AIFeatures] has lost its tags. *)
Lemma AIFeatures_validate_without_tags (features : gmap string pyval) :
  ∃ e, AIFeatures_validate (filter (λ kv, kv.1 ≠ "user_tags") features) = Raise e.
Proof.
  unfold AIFeatures_validate.
  assert (field "AIFeatures" as_str_list
            (filter (λ kv : string * pyval, kv.1 ≠ "user_tags") features) "user_tags"
          = Raise (ValidationError "AIFeatures" "user_tags: Field required")) as Htags.
  { unfold field. rewrite map_lookup_filter_None_2; [done|].
    right. intros v _ Hne. by apply Hne. }
  rewrite Htags.
  repeat match goal with
         | |- context [result_bind ?r _] =>
             lazymatch r with
             | Raise _ => fail
             | _ => destruct r; cbn [result_bind]
             end
         end; eauto.
Qed.

(** The success envelope of [process_message] cannot be constructed. *)
Lemma WalletScoreSuccess_never_built
    (address zscore category : string) (now : Z) (final_score : Q)
    (count : pyval) (features : gmap string pyval) :
  ∃ e, WalletScoreSuccess_new address zscore now
         [CategoryDict category final_score count
            (filter (λ kv, kv.1 ≠ "user_tags") features)]
       = Raise e.
Proof.
  unfold WalletScoreSuccess_new, CategoryScore_validate. cbn.
  destruct (AIFeatures_validate_without_tags features) as [e ->].
  destruct (as_int count); cbn; eauto.
Qed.

(** The producer queues what its serializer accepts, and raises on bytes. *)
Lemma producer_send_dict (topic : string) (e : OutputEnvelope) (w : World) :
  producer_send topic (PyDict e) w
  = (Ok tt, mkWorld (stats w) (sent w ++ [(topic, Utf8 (JsonDocument e))])
              (ticks w) (fatal w)).
Proof. reflexivity. Qed.

Lemma producer_send_bytes (topic : string) (b : bytes) (w : World) :
  producer_send topic (PyBytes b) w
  = (Raise (TypeError "Object of type bytes is not JSON serializable"), w).
Proof. reflexivity. Qed.

Section ProcessorResults.

Variable model_validate : json → result WalletTransactionMessage.t.
Variable clock : nat → Z.
Variable kafka_service : KafkaService.t.

(** The [try] block never completes: it raises, having sent nothing and
    counted nothing. *)
Lemma try_body_raises (msg : ConsumerRecord.t) (w : World) :
  ∃ e n, try_body model_validate clock kafka_service msg w
         = (Raise e, with_ticks n w).
Proof.
  unfold try_body, bind, lift, datetime_now.
  destruct (model_validate (ConsumerRecord.value msg)) as [m|e].
  - destruct (AIModel.calculate_score m) as [final_score features].
    match goal with
    | |- context [WalletScoreSuccess_new ?a ?z ?n [CategoryDict ?c ?f ?k (filter _ ?d)]] =>
        destruct (WalletScoreSuccess_never_built a z c n f k d) as [e ->]
    end.
    by exists e, 1%nat.
  - exists e, 0%nat. by destruct w.
Qed.

(** What the [except] block does on an object payload. *)
Lemma except_body_dict (msg : ConsumerRecord.t) (items : list (string * json))
    (e : exn) (w : World) :
  ConsumerRecord.value msg = JDict items →
  except_body clock kafka_service msg e w
  = (match default (JStr "N/A") (assoc_lookup "wallet_address" items) with
     | JStr _ => Raise (TypeError "Object of type bytes is not JSON serializable")
     | _ => Raise (ValidationError "WalletScoreFailure"
                     "wallet_address: Input should be a valid string")
     end,
     mkWorld
       (mkStats (processed_count (stats w)) (success_count (stats w))
          (failure_count (stats w) + 1) (last_processed_timestamp (stats w)))
       (sent w) (1 + ticks w) (fatal w)).
Proof.
  intros Hvalue. unfold except_body. rewrite Hvalue.
  unfold bind, lift, update_stats, datetime_now, json_get.
  by destruct (default (JStr "N/A") (assoc_lookup "wallet_address" items)).
Qed.

(** A message with an object payload: both counters move, nothing is sent,
    and an exception leaves the body. *)
Lemma process_message_dict (msg : ConsumerRecord.t) (items : list (string * json))
    (w : World) :
  ConsumerRecord.value msg = JDict items →
  ∃ n,
    process_message model_validate clock kafka_service msg w
    = (match default (JStr "N/A") (assoc_lookup "wallet_address" items) with
       | JStr _ => Raise (TypeError "Object of type bytes is not JSON serializable")
       | _ => Raise (ValidationError "WalletScoreFailure"
                       "wallet_address: Input should be a valid string")
       end,
       mkWorld
         (mkStats (processed_count (stats w) + 1) (success_count (stats w))
            (failure_count (stats w) + 1)
            (Some (Z.quot (ConsumerRecord.timestamp msg) 1000)))
         (sent w) (n + ticks w) (fatal w)).
Proof.
  intros Hvalue. unfold process_message.
  unfold bind at 1 2 3. unfold lift at 1.
  replace (json_get (ConsumerRecord.value msg) "wallet_address" (JStr "N/A"))
    with (Ok (default (JStr "N/A") (assoc_lookup "wallet_address" items)))
    by (by rewrite Hvalue).
  cbn [update_stats]. unfold try_except.
  match goal with
  | |- context [try_body _ _ _ _ ?w0] =>
      destruct (try_body_raises msg w0) as (e & n & ->)
  end.
  rewrite (except_body_dict msg items e _ Hvalue).
  exists (1 + n)%nat. done.
Qed.

(** A message whose payload is not an object: the first [msg.value.get]
    raises, and nothing at all has changed. *)
Lemma process_message_not_dict (msg : ConsumerRecord.t) (w : World) :
  (∀ items, ConsumerRecord.value msg ≠ JDict items) →
  process_message model_validate clock kafka_service msg w
  = (Raise (AttributeError "object has no attribute 'get'"), w).
Proof.
  intros Hvalue. unfold process_message, bind, lift, json_get.
  by destruct (ConsumerRecord.value msg) as [| | | | | |items];
    [..|destruct (Hvalue items)].
Qed.

(** Whatever the message, its processing ends with an exception, sends
    nothing, counts no success, and keeps
    [processed_count - (success_count + failure_count)] as it was. *)
Lemma process_message_outcome (msg : ConsumerRecord.t) (w : World) :
  ∃ e w',
    process_message model_validate clock kafka_service msg w = (Raise e, w')
    ∧ sent w' = sent w
    ∧ fatal w' = fatal w
    ∧ success_count (stats w') = success_count (stats w)
    ∧ processed_count (stats w') - (success_count (stats w') + failure_count (stats w'))
      = processed_count (stats w) - (success_count (stats w) + failure_count (stats w)).
Proof.
  destruct (ConsumerRecord.value msg) as [| | | | | |items] eqn:Hvalue.
  7: { destruct (process_message_dict msg items w Hvalue) as [n ->].
       destruct (default (JStr "N/A") (assoc_lookup "wallet_address" items));
         eexists _, _; (split; [reflexivity|]); cbn; split_and!; try done; lia. }
  all: rewrite process_message_not_dict by (intros ?; rewrite Hvalue; discriminate).
  all: by eexists _, _.
Qed.

(** The loop over any delivery: nothing is ever sent, no success is ever
    counted, every message ends in the outer handler, and the counters
    stay balanced. *)
Lemma kafka_processor_outcome (msgs : list ConsumerRecord.t) (w : World) :
  let w' := kafka_processor model_validate clock kafka_service msgs w in
  sent w' = sent w
  ∧ success_count (stats w') = success_count (stats w)
  ∧ length (fatal w') = (length (fatal w) + length msgs)%nat
  ∧ processed_count (stats w') - (success_count (stats w') + failure_count (stats w'))
    = processed_count (stats w) - (success_count (stats w) + failure_count (stats w)).
Proof.
  revert w. induction msgs as [|msg msgs IH]; intros w; cbn [kafka_processor].
  { cbn. split_and!; try done. }
  destruct (process_message_outcome msg w) as (e & w1 & -> & Hsent & Hfatal & Hsucc & Hbal).
  specialize (IH (log_fatal e w1)). cbn zeta in IH.
  destruct IH as (IHsent & IHsucc & IHfatal & IHbal).
  cbn [log_fatal stats sent fatal] in *.
  rewrite IHbal, IHsent, IHsucc, IHfatal, Hbal, Hsent, Hsucc, length_app, Hfatal.
  cbn [length]. split_and!; try done. lia.
Qed.

(** After a message has raised, the following ones are still taken up:
    over object payloads every message is counted. *)
Lemma kafka_processor_counts_objects (msgs : list ConsumerRecord.t) (w : World) :
  Forall (λ msg, ∃ items, ConsumerRecord.value msg = JDict items) msgs →
  let w' := kafka_processor model_validate clock kafka_service msgs w in
  processed_count (stats w') = processed_count (stats w) + Z.of_nat (length msgs)
  ∧ failure_count (stats w') = failure_count (stats w) + Z.of_nat (length msgs).
Proof.
  intros Hobjects. revert w.
  induction Hobjects as [|msg msgs [items Hvalue] _ IH]; intros w;
    cbn [kafka_processor].
  { cbn. lia. }
  destruct (process_message_dict msg items w Hvalue) as [n ->].
  destruct (default (JStr "N/A") (assoc_lookup "wallet_address" items));
    match goal with
    | |- context [kafka_processor _ _ _ _ ?w0] => specialize (IH w0)
    end;
    cbn zeta in IH; destruct IH as [-> ->]; cbn; lia.
Qed.

End ProcessorResults.

(** * The claims about the stream processor *)

(** C1 (success path), at a well-formed message: the message passes
    validation and the engine scores it (100, no exception), yet the
    [try] block raises while building the success envelope, whose
    features lack [user_tags]; the message is counted as a failure and
    nothing reaches the success topic. *)
Theorem C1_valid_message_ends_in_failure_branch :
  strict_model_validate (ConsumerRecord.value msg_valid) = Ok wallet_valid
  ∧ (AIModel.calculate_score wallet_valid).1 = inject_Z 100
  ∧ try_body strict_model_validate sample_clock get_kafka_service msg_valid counted_world
    = (Raise (ValidationError "AIFeatures" "user_tags: Field required"),
       with_ticks 1 counted_world)
  ∧ process_message strict_model_validate sample_clock get_kafka_service
      msg_valid initial_world
    = (Raise (TypeError "Object of type bytes is not JSON serializable"),
       mkWorld (mkStats 1 0 1 (Some 1700000000)) [] 2 []).
Proof. split_and!; by vm_compute. Qed.

(** C7 (failure path), at a message whose [wallet_address] is [null]:
    validation rejects it and the failure is counted, but the failure
    envelope itself is rejected for its non-string address; nothing is
    sent and the exception leaves the message's processing.  At the
    message that merely lacks [wallet_address] the envelope is built, and
    then the producer's serializer refuses the bytes it is given: again
    nothing is sent. *)
Theorem C7_invalid_message_publishes_no_failure_envelope :
  (∃ e, strict_model_validate (ConsumerRecord.value msg_null_address) = Raise e)
  ∧ process_message strict_model_validate sample_clock get_kafka_service
      msg_null_address initial_world
    = (Raise (ValidationError "WalletScoreFailure"
                "wallet_address: Input should be a valid string"),
       mkWorld (mkStats 1 0 1 (Some 1700000000)) [] 1 [])
  ∧ (∃ e, strict_model_validate (ConsumerRecord.value msg_missing_address) = Raise e)
  ∧ process_message strict_model_validate sample_clock get_kafka_service
      msg_missing_address initial_world
    = (Raise (TypeError "Object of type bytes is not JSON serializable"),
       mkWorld (mkStats 1 0 1 (Some 1700000000)) [] 1 []).
Proof. split_and!; try (eexists; by vm_compute); by vm_compute. Qed.

(** C8 (counters), at a message whose payload is a JSON array: the
    first [msg.value.get] raises before any counter is touched, so
    [processed_count] and [last_processed_timestamp] stay as they were. *)
Theorem C8_array_payload_is_not_counted :
  process_message strict_model_validate sample_clock get_kafka_service
    msg_array_payload initial_world
  = (Raise (AttributeError "object has no attribute 'get'"), initial_world)
  ∧ processed_count
      (stats (kafka_processor strict_model_validate sample_clock get_kafka_service
                [msg_array_payload] initial_world)) = 0
  ∧ last_processed_timestamp
      (stats (kafka_processor strict_model_validate sample_clock get_kafka_service
                [msg_array_payload] initial_world)) = None.
Proof. split_and!; by vm_compute. Qed.

(** * Further properties: the service object *)

(** X1: once [get_consumer] has returned a consumer, every later call
    returns that same consumer and leaves the object as it is, whether
    or not the broker answers then. *)
Theorem get_consumer_returns_cached_consumer
    (connect connect' : string → option kafka_error)
    (self self' : ServiceObject.t) (consumer : KafkaConsumer.t) :
  get_consumer connect self = (inr consumer, self') →
  get_consumer connect' self' = (inr consumer, self').
Proof.
  unfold get_consumer. intros Hfirst.
  destruct (ServiceObject._consumer self) as [c|] eqn:Hc.
  - injection Hfirst as <- <-. by rewrite Hc.
  - destruct (connect (ServiceObject.KAFKA_BROKER self)); [discriminate|].
    by injection Hfirst as <- <-.
Qed.

Lemma get_consumer_returns_cached_consumer_witness :
  get_consumer broker_up default_service
  = (inr (KafkaConsumer.mk "wallet-transactions" "localhost:9092" "earliest" true
           "reputation-scorer-group" false),
     (get_consumer broker_up default_service).2)
  ∧ get_consumer broker_down (get_consumer broker_up default_service).2
    = (inr (KafkaConsumer.mk "wallet-transactions" "localhost:9092" "earliest" true
             "reputation-scorer-group" false),
       (get_consumer broker_up default_service).2).
Proof.
  split; [reflexivity|].
  exact (get_consumer_returns_cached_consumer broker_up broker_down default_service
           _ _ eq_refl).
Defined.

(** X2: a [get_consumer] that raises has stored nothing: the object is
    unchanged and still has no consumer, so the next call contacts the
    broker again. *)
Theorem get_consumer_failure_leaves_object_unchanged
    (connect : string → option kafka_error) (self self' : ServiceObject.t)
    (e : kafka_error) :
  get_consumer connect self = (inl e, self') →
  self' = self
  ∧ ServiceObject._consumer self = None
  ∧ connect (ServiceObject.KAFKA_BROKER self) = Some e.
Proof.
  unfold get_consumer. intros Hcall.
  destruct (ServiceObject._consumer self); [discriminate|].
  destruct (connect (ServiceObject.KAFKA_BROKER self)) as [e'|] eqn:Hconnect;
    [|discriminate].
  by injection Hcall as <- <-.
Qed.

Lemma get_consumer_failure_leaves_object_unchanged_witness :
  get_consumer broker_down default_service
  = (inl NoBrokersAvailable, default_service)
  ∧ default_service = default_service
  ∧ ServiceObject._consumer default_service = None
  ∧ broker_down (ServiceObject.KAFKA_BROKER default_service)
    = Some NoBrokersAvailable.
Proof.
  split; [reflexivity|].
  exact (get_consumer_failure_leaves_object_unchanged broker_down default_service
           default_service _ eq_refl).
Defined.

(** X3: [stop_consumer] closes the consumer but keeps it in the object:
    a [get_consumer] after it hands back the closed consumer and never
    contacts the broker for a new one. *)
Theorem get_consumer_after_stop_is_closed
    (connect : string → option kafka_error) (self : ServiceObject.t)
    (consumer : KafkaConsumer.t) :
  ServiceObject._consumer self = Some consumer →
  get_consumer connect (stop_consumer self)
  = (inr (close consumer), stop_consumer self)
  ∧ KafkaConsumer.closed (close consumer) = true
  ∧ stop_consumer (stop_consumer self) = stop_consumer self.
Proof.
  intros Hc. unfold get_consumer, stop_consumer. rewrite Hc. cbn.
  split_and!; reflexivity.
Qed.

Lemma get_consumer_after_stop_is_closed_witness :
  ServiceObject._consumer (get_consumer broker_up default_service).2
  = Some (KafkaConsumer.mk "wallet-transactions" "localhost:9092" "earliest" true
            "reputation-scorer-group" false)
  ∧ get_consumer broker_up
      (stop_consumer (get_consumer broker_up default_service).2)
    = (inr (KafkaConsumer.mk "wallet-transactions" "localhost:9092" "earliest" true
             "reputation-scorer-group" true),
       stop_consumer (get_consumer broker_up default_service).2).
Proof.
  split; [reflexivity|].
  exact (proj1 (get_consumer_after_stop_is_closed broker_up
                  (get_consumer broker_up default_service).2 _ eq_refl)).
Defined.

(** X4: the service is configured once: a second [KafkaService()] under
    any other environment returns the first instance, clients included,
    and leaves the class attribute as it was. *)
Theorem KafkaService_configured_once
    (environ environ' : gmap string string) (_instance : option ServiceObject.t) :
  let first := KafkaService_call environ _instance in
  KafkaService_call environ' first.2 = first
  ∧ first.2 = Some first.1.
Proof. unfold KafkaService_call. by destruct _instance as [self|]. Qed.

(** X24: a failed attempt to get both clients loses nothing: when the
    consumer could be built and the producer could not, the consumer
    stays in the object, and a later attempt returns that same consumer
    with a newly built producer, without contacting the broker for the
    consumer again. *)
Theorem get_clients_retry_keeps_consumer
    (connect connect' connect'' : string → option kafka_error)
    (self : ServiceObject.t) (e : kafka_error) :
  ServiceObject._consumer self = None →
  ServiceObject._producer self = None →
  connect (ServiceObject.KAFKA_BROKER self) = None →
  connect' (ServiceObject.KAFKA_BROKER self) = Some e →
  connect'' (ServiceObject.KAFKA_BROKER self) = None →
  ∃ (consumer : KafkaConsumer.t) (self' self'' : ServiceObject.t),
    get_clients connect connect' self = (inl e, self')
    ∧ ServiceObject._consumer self' = Some consumer
    ∧ KafkaConsumer.closed consumer = false
    ∧ get_clients connect' connect'' self'
      = (inr (consumer, KafkaProducer.mk (ServiceObject.KAFKA_BROKER self)), self'')
    ∧ ∀ c1 c2, get_clients c1 c2 self''
               = (inr (consumer, KafkaProducer.mk (ServiceObject.KAFKA_BROKER self)),
                  self'').
Proof.
  intros Hconsumer Hproducer Hup Hdown Hup'.
  set (consumer :=
         KafkaConsumer.mk (KafkaService.INPUT_TOPIC (ServiceObject.topics self))
           (ServiceObject.KAFKA_BROKER self) "earliest" true
           "reputation-scorer-group" false).
  set (producer := KafkaProducer.mk (ServiceObject.KAFKA_BROKER self)).
  exists consumer,
    (ServiceObject.mk (ServiceObject.KAFKA_BROKER self) (ServiceObject.topics self)
       (Some consumer) None),
    (ServiceObject.mk (ServiceObject.KAFKA_BROKER self) (ServiceObject.topics self)
       (Some consumer) (Some producer)).
  split_and!; try reflexivity.
  - unfold get_clients, get_consumer, get_producer.
    rewrite Hconsumer, Hup. cbn. by rewrite Hproducer, Hdown.
  - unfold get_clients, get_consumer, get_producer. cbn. by rewrite Hup'.
Qed.

Lemma get_clients_retry_keeps_consumer_witness :
  ServiceObject._consumer default_service = None
  ∧ ServiceObject._producer default_service = None
  ∧ broker_up (ServiceObject.KAFKA_BROKER default_service) = None
  ∧ broker_down (ServiceObject.KAFKA_BROKER default_service) = Some NoBrokersAvailable
  ∧ ∃ (consumer : KafkaConsumer.t) (self' self'' : ServiceObject.t),
      get_clients broker_up broker_down default_service
      = (inl NoBrokersAvailable, self')
      ∧ ServiceObject._consumer self' = Some consumer
      ∧ KafkaConsumer.closed consumer = false
      ∧ get_clients broker_down broker_up self'
        = (inr (consumer,
                KafkaProducer.mk (ServiceObject.KAFKA_BROKER default_service)),
           self'')
      ∧ ∀ c1 c2, get_clients c1 c2 self''
                 = (inr (consumer,
                         KafkaProducer.mk (ServiceObject.KAFKA_BROKER default_service)),
                    self'').
Proof.
  split; [reflexivity|]. split; [reflexivity|]. split; [reflexivity|].
  split; [reflexivity|].
  exact (get_clients_retry_keeps_consumer broker_up broker_down broker_up
           default_service NoBrokersAvailable eq_refl eq_refl eq_refl eq_refl eq_refl).
Defined.

(** * Further properties: the normalizer *)

(** Unfold [_normalize_score] down to the tests of the bucket loop. *)
Ltac normalize_unfold :=
  unfold AIModel._normalize_score;
  repeat match goal with
         | |- context [AIModel.SCORE_MAP !! ?k] =>
             let m := eval vm_compute in (AIModel.SCORE_MAP !! k) in
             change (AIModel.SCORE_MAP !! k) with m
         end;
  cbv beta iota; cbn [AIModel.first_bucket].

Ltac known_score_type H :=
  apply list_elem_of_In in H; destruct H as [<-|[<-|[]]].

(** X5: a score type other than ["lp_score"] and ["swap_score"] has no
    table: [_normalize_score] raises [KeyError] whatever the value. *)
Theorem normalize_score_unknown_type_raises (score : Q) (score_type : string) :
  score_type ∉ ["lp_score"; "swap_score"] →
  AIModel._normalize_score score score_type = Raise (KeyError score_type).
Proof.
  intros Hnot. unfold AIModel._normalize_score, AIModel.SCORE_MAP.
  cbn [list_to_map foldr uncurry fst snd].
  rewrite lookup_insert_ne by (intros <-; apply Hnot; list_mem).
  rewrite lookup_insert_ne by (intros <-; apply Hnot; list_mem).
  by rewrite lookup_empty.
Qed.

Lemma normalize_score_unknown_type_raises_witness :
  ("final_score" ∉ ["lp_score"; "swap_score"])
  ∧ AIModel._normalize_score 50 "final_score" = Raise (KeyError "final_score").
Proof.
  assert ("final_score" ∉ ["lp_score"; "swap_score"]) as Hnot.
  { intros Hin. apply list_elem_of_In in Hin.
    destruct Hin as [?|[?|[]]]; discriminate. }
  split; [exact Hnot|].
  exact (normalize_score_unknown_type_raises 50 "final_score" Hnot).
Defined.

(** X6: for either score type the normalizer is monotone: a larger value
    never gets a smaller score. *)
Theorem normalize_score_monotone (low high : Q) (score_type : string) :
  score_type ∈ ["lp_score"; "swap_score"] →
  (low <= high)%Q →
  match AIModel._normalize_score low score_type,
        AIModel._normalize_score high score_type with
  | Ok v, Ok v' => (v <= v')%Q
  | _, _ => False
  end.
Proof.
  intros Htype Hle. known_score_type Htype.
  all: normalize_unfold; repeat bucket_test; discriminate.
Qed.

Lemma normalize_score_monotone_witness :
  "lp_score" ∈ ["lp_score"; "swap_score"]
  ∧ (80 <= 92)%Q
  ∧ match AIModel._normalize_score 80 "lp_score",
          AIModel._normalize_score 92 "lp_score" with
    | Ok v, Ok v' => (v <= v')%Q
    | _, _ => False
    end.
Proof.
  assert ("lp_score" ∈ ["lp_score"; "swap_score"]) as Htype
    by apply list_elem_of_here.
  assert (80 <= 92)%Q as Hle by discriminate.
  split; [exact Htype|]. split; [exact Hle|].
  exact (normalize_score_monotone 80 92 "lp_score" Htype Hle).
Defined.

(** X7: for either score type the result lies between 0 and 1000; it is
    1000 exactly when the value is at least 99, and 0 exactly when the
    test [0 <= value] fails. *)
Theorem normalize_score_range (score : Q) (score_type : string) :
  score_type ∈ ["lp_score"; "swap_score"] →
  ∃ v : Q,
    AIModel._normalize_score score score_type = Ok v
    ∧ (0 <= v ∧ v <= 1000)%Q
    ∧ (v == 0 ↔ ¬ 0 <= score)%Q
    ∧ (v == 1000 ↔ 99 <= score)%Q.
Proof.
  intros Htype. known_score_type Htype.
  all: normalize_unfold; repeat bucket_test.
  all: eexists; split; [reflexivity|].
  all: split; [split; discriminate|].
  all: split; (split; [intros Hv; try discriminate Hv; unfold inject_Z in *; lra
                      |intros Hs; try reflexivity; exfalso; unfold inject_Z in *; lra]).
Qed.

Lemma normalize_score_range_witness :
  "swap_score" ∈ ["lp_score"; "swap_score"]
  ∧ ∃ v : Q,
      AIModel._normalize_score (-3) "swap_score" = Ok v
      ∧ (0 <= v ∧ v <= 1000)%Q
      ∧ (v == 0 ↔ ¬ 0 <= -3)%Q
      ∧ (v == 1000 ↔ 99 <= -3)%Q.
Proof.
  assert ("swap_score" ∈ ["lp_score"; "swap_score"]) as Htype
    by apply list_elem_of_further, list_elem_of_here.
  split; [exact Htype|].
  exact (normalize_score_range (-3) "swap_score" Htype).
Defined.

(** X8: the two tables differ only on [75, 95): outside that range both
    score types give the same result, and inside it the swap score is the
    higher one. *)
Theorem normalize_score_tables_differ_only_75_95 (score : Q) :
  match AIModel._normalize_score score "lp_score",
        AIModel._normalize_score score "swap_score" with
  | Ok lp, Ok swap =>
      ((75 <= score ∧ score < 95)%Q ∧ (lp < swap)%Q)
      ∨ (¬ (75 <= score ∧ score < 95)%Q ∧ lp = swap)
  | _, _ => False
  end.
Proof.
  normalize_unfold; repeat bucket_test.
  all: first [ right; split; [unfold inject_Z in *; lra|reflexivity]
             | left; split; [unfold inject_Z in *; lra|reflexivity] ].
Qed.

(** * Further properties: the scoring engine *)

Lemma length_remove_dups_le (col : list Z) :
  (length (remove_dups col) ≤ length col)%nat.
Proof.
  induction col as [|x col IH]; [done|].
  cbn [remove_dups]. destruct (decide_rel elem_of x col); cbn [length]; lia.
Qed.

(** X9: on a frame whose timestamps can be converted, the active days
    are at least 0 and at most the number of rows, are 0 only for the
    empty frame, and are never 10. *)
Theorem calculate_active_days_bounds (df : AIModel.DataFrame) :
  timestamps_representable df = true →
  0 ≤ AIModel._calculate_active_days df ≤ AIModel.len df
  ∧ (AIModel._calculate_active_days df = 0 ↔ df = [])
  ∧ AIModel._calculate_active_days df ≠ 10.
Proof.
  intros _. destruct df as [|row df].
  { split_and!; try done; cbn; lia. }
  pose proof (calculate_active_days_pos (row :: df) ltac:(discriminate)) as Hpos.
  assert (AIModel._calculate_active_days (row :: df) ≤ AIModel.len (row :: df)
          ∧ AIModel._calculate_active_days (row :: df) ≠ 10) as [Hle Hten].
  { unfold AIModel._calculate_active_days, AIModel.nunique, AIModel.len.
    cbn [AIModel.empty].
    pose proof (length_remove_dups_le
                  (map (λ r, AIModel.to_date (Transaction.timestamp r)) (row :: df)))
      as Hlen.
    rewrite length_map in Hlen.
    destruct (Z.eqb_spec
                (Z.of_nat (length (remove_dups
                   (map (λ r, AIModel.to_date (Transaction.timestamp r)) (row :: df)))))
                10); lia. }
  split_and!; [lia|done| |done].
  split; [lia|discriminate].
Qed.

Lemma calculate_active_days_bounds_witness :
  timestamps_representable SAMPLE_DF = true
  ∧ 0 ≤ AIModel._calculate_active_days SAMPLE_DF ≤ AIModel.len SAMPLE_DF
  ∧ (AIModel._calculate_active_days SAMPLE_DF = 0 ↔ SAMPLE_DF = [])
  ∧ AIModel._calculate_active_days SAMPLE_DF ≠ 10.
Proof.
  split; [reflexivity|].
  exact (calculate_active_days_bounds SAMPLE_DF eq_refl).
Defined.

Lemma count_action_Permutation (a : string) (df df' : AIModel.DataFrame) :
  df ≡ₚ df' → count_action a df = count_action a df'.
Proof.
  intros Hperm. unfold count_action.
  by rewrite (Permutation_length
                (filter_Permutation (λ row, Transaction.action row = a) _ _ Hperm)).
Qed.

Lemma distinct_dates_Permutation (df df' : AIModel.DataFrame) :
  df ≡ₚ df' → distinct_dates df = distinct_dates df'.
Proof.
  intros Hperm. unfold distinct_dates. do 2 f_equal.
  apply list_to_set_perm_L. by apply Permutation_map.
Qed.

(** X10: the order of the transactions inside the [dexes] block does not
    matter: two wallets whose blocks hold the same transactions in any
    order get the same score and the same features. *)
Theorem calculate_score_ignores_transaction_order
    (w w' : WalletTransactionMessage.t) (dex dex' : ProtocolData.t) :
  AIModel.find_dex (WalletTransactionMessage.data w) = Some dex →
  AIModel.find_dex (WalletTransactionMessage.data w') = Some dex' →
  ProtocolData.transactions dex ≡ₚ ProtocolData.transactions dex' →
  AIModel.calculate_score w = AIModel.calculate_score w'.
Proof.
  intros Hdex Hdex' Hperm.
  rewrite (calculate_score_dexes w dex Hdex), (calculate_score_dexes w' dex' Hdex').
  cbv zeta. rewrite !calculate_active_days_spec.
  unfold expected_tags, liquidity_count, swap_count, AIModel.len.
  rewrite !(count_action_Permutation _ _ _ Hperm),
          (distinct_dates_Permutation _ _ Hperm), (Permutation_length Hperm).
  replace (AIModel.empty (ProtocolData.transactions dex))
    with (AIModel.empty (ProtocolData.transactions dex')); [done|].
  destruct (ProtocolData.transactions dex) as [|r l],
           (ProtocolData.transactions dex') as [|r' l']; try done.
  - by apply Permutation_nil_cons in Hperm.
  - symmetry in Hperm. by apply Permutation_nil_cons in Hperm.
Qed.

Lemma calculate_score_ignores_transaction_order_witness :
  AIModel.find_dex (WalletTransactionMessage.data sample_wallet) = Some sample_dex
  ∧ AIModel.find_dex
      [ProtocolData.mk "dexes" (reverse SAMPLE_DF)]
    = Some (ProtocolData.mk "dexes" (reverse SAMPLE_DF))
  ∧ SAMPLE_DF ≡ₚ reverse SAMPLE_DF
  ∧ AIModel.calculate_score sample_wallet
    = AIModel.calculate_score
        (WalletTransactionMessage.mk "0x123"
           [ProtocolData.mk "dexes" (reverse SAMPLE_DF)]).
Proof.
  assert (SAMPLE_DF ≡ₚ reverse SAMPLE_DF) as Hperm
    by (symmetry; apply reverse_Permutation).
  split; [reflexivity|]. split; [reflexivity|]. split; [exact Hperm|].
  exact (calculate_score_ignores_transaction_order sample_wallet
           (WalletTransactionMessage.mk "0x123"
              [ProtocolData.mk "dexes" (reverse SAMPLE_DF)])
           sample_dex (ProtocolData.mk "dexes" (reverse SAMPLE_DF))
           eq_refl eq_refl Hperm).
Defined.

Lemma count_action_insert (a : string) (pre post : AIModel.DataFrame)
    (t : Transaction.t) :
  count_action a (pre ++ t :: post)
  = count_action a (pre ++ post) + (if decide (Transaction.action t = a) then 1 else 0).
Proof.
  unfold count_action. rewrite !filter_app, filter_cons, !length_app.
  destruct (decide (Transaction.action t = a)); cbn [length]; lia.
Qed.

Lemma active_block_not_empty (df : AIModel.DataFrame) :
  ((0 <? liquidity_count df) || (0 <? swap_count df)) = true →
  AIModel.empty df = false.
Proof. by destruct df. Qed.

(** X11: among timestamps the engine can take, a transaction whose
    action is none of [add_liquidity], [remove_liquidity] and [swap] is
    counted in [total_transaction_count] and in no score or tag: with or
    without it the final score, both sub-scores and the tags are the
    same. *)
Theorem calculate_score_ignores_other_actions
    (w w' : WalletTransactionMessage.t) (dex dex' : ProtocolData.t)
    (pre post : list Transaction.t) (t : Transaction.t) :
  AIModel.find_dex (WalletTransactionMessage.data w) = Some dex →
  AIModel.find_dex (WalletTransactionMessage.data w') = Some dex' →
  ProtocolData.transactions dex = pre ++ post →
  ProtocolData.transactions dex' = pre ++ t :: post →
  timestamps_representable (pre ++ t :: post) = true →
  Transaction.action t ∉ ["add_liquidity"; "remove_liquidity"; "swap"] →
  (AIModel.calculate_score w').1 = (AIModel.calculate_score w).1
  ∧ (∀ key, key ∈ ["lp_score"; "swap_score"; "user_tags"] →
       (AIModel.calculate_score w').2 !! key = (AIModel.calculate_score w).2 !! key)
  ∧ (AIModel.calculate_score w').2 !! "total_transaction_count"
    = Some (PyInt (AIModel.len (ProtocolData.transactions dex) + 1)).
Proof.
  intros Hdex Hdex' Htxs Htxs' _ Hother.
  rewrite (calculate_score_dexes w dex Hdex), (calculate_score_dexes w' dex' Hdex').
  cbv zeta. rewrite Htxs, Htxs'.
  assert (liquidity_count (pre ++ t :: post) = liquidity_count (pre ++ post)) as Hlc.
  { unfold liquidity_count. rewrite !count_action_insert.
    repeat case_decide; try lia; exfalso; apply Hother; list_mem. }
  assert (swap_count (pre ++ t :: post) = swap_count (pre ++ post)) as Hsc.
  { unfold swap_count. rewrite count_action_insert.
    case_decide; try lia; exfalso; apply Hother; list_mem. }
  assert ((if (0 <? liquidity_count (pre ++ post)) || (0 <? swap_count (pre ++ post))
           then expected_tags (pre ++ t :: post) else ["inactive"])
          = (if (0 <? liquidity_count (pre ++ post)) || (0 <? swap_count (pre ++ post))
             then expected_tags (pre ++ post) else ["inactive"])) as Htags.
  { destruct ((0 <? liquidity_count (pre ++ post)) || (0 <? swap_count (pre ++ post)))
      eqn:Hactive; [|done].
    unfold expected_tags. rewrite Hlc, Hsc, (active_block_not_empty _ Hactive).
    by destruct pre. }
  rewrite Hlc, Hsc, Htags. cbn [fst snd]. split; [done|]. split.
  - intros key Hkey. apply list_elem_of_In in Hkey.
    destruct Hkey as [<-|[<-|[<-|[]]]]; by simplify_map_eq.
  - simplify_map_eq. do 2 f_equal. unfold AIModel.len.
    rewrite !length_app. cbn [length]. lia.
Qed.

Lemma calculate_score_ignores_other_actions_witness :
  AIModel.find_dex (WalletTransactionMessage.data sample_wallet) = Some sample_dex
  ∧ ProtocolData.transactions sample_dex = [] ++ SAMPLE_DF
  ∧ timestamps_representable ([] ++ tx "borrow" 1680000000 :: SAMPLE_DF) = true
  ∧ ("borrow" ∉ ["add_liquidity"; "remove_liquidity"; "swap"])
  ∧ (AIModel.calculate_score borrow_wallet).1 = (AIModel.calculate_score sample_wallet).1
  ∧ (AIModel.calculate_score borrow_wallet).2 !! "total_transaction_count"
    = Some (PyInt (AIModel.len SAMPLE_DF + 1)).
Proof.
  assert ("borrow" ∉ ["add_liquidity"; "remove_liquidity"; "swap"]) as Hother.
  { intros Hin. apply list_elem_of_In in Hin.
    destruct Hin as [?|[?|[?|[]]]]; discriminate. }
  split; [reflexivity|]. split; [reflexivity|]. split; [reflexivity|].
  split; [exact Hother|].
  destruct (calculate_score_ignores_other_actions sample_wallet borrow_wallet
              sample_dex
              (ProtocolData.mk "dexes" (tx "borrow" 1680000000 :: SAMPLE_DF))
              [] SAMPLE_DF (tx "borrow" 1680000000)
              eq_refl eq_refl eq_refl eq_refl eq_refl Hother)
    as (Hfinal & _ & Htotal).
  split; [exact Hfinal|exact Htotal].
Defined.

(** Membership in an explicit list, with linear arithmetic on the side. *)
Ltac list_mem_lia :=
  repeat (rewrite elem_of_cons in * || rewrite elem_of_nil in * );
  intuition (try congruence; try discriminate; try lia).

(** X12: which tags a wallet gets whose [dexes] block has timestamps the
    engine can take: ["consistent_lp"]
    exactly when it has a liquidity action, ["consistent_trader"] exactly
    when it has a swap, ["inactive"] exactly when it has neither; no tag
    occurs twice and no other tag occurs. *)
Theorem user_tags_characterised
    (w : WalletTransactionMessage.t) (dex : ProtocolData.t) :
  AIModel.find_dex (WalletTransactionMessage.data w) = Some dex →
  timestamps_representable (ProtocolData.transactions dex) = true →
  ∃ user_tags : list string,
    (AIModel.calculate_score w).2 !! "user_tags" = Some (PyStrList user_tags)
    ∧ ("consistent_lp" ∈ user_tags
       ↔ 0 < liquidity_count (ProtocolData.transactions dex))
    ∧ ("consistent_trader" ∈ user_tags
       ↔ 0 < swap_count (ProtocolData.transactions dex))
    ∧ ("inactive" ∈ user_tags
       ↔ liquidity_count (ProtocolData.transactions dex) = 0
         ∧ swap_count (ProtocolData.transactions dex) = 0)
    ∧ NoDup user_tags
    ∧ (∀ tag, tag ∈ user_tags →
         tag ∈ ["consistent_lp"; "consistent_trader"; "inactive"]).
Proof.
  intros Hdex _. rewrite (calculate_score_dexes w dex Hdex). cbn [snd].
  set (df := ProtocolData.transactions dex).
  pose proof (count_action_nonneg "add_liquidity" df).
  pose proof (count_action_nonneg "remove_liquidity" df).
  pose proof (count_action_nonneg "swap" df).
  eexists. split; [by simplify_map_eq|].
  pose proof (active_block_not_empty df) as Hne. unfold expected_tags.
  destruct (Z.ltb_spec 0 (liquidity_count df)) as [Hl|Hl],
           (Z.ltb_spec 0 (swap_count df)) as [Hs|Hs];
    cbn [orb] in *; rewrite ?Hne by done; cbn [app];
    unfold liquidity_count, swap_count in *;
    (split_and!; [list_mem_lia|list_mem_lia|list_mem_lia
                 |repeat constructor; list_mem_lia|intros tag; list_mem_lia]).
Qed.

Lemma user_tags_characterised_witness :
  AIModel.find_dex (WalletTransactionMessage.data liquidity_wallet)
  = Some (ProtocolData.mk "dexes" liquidity_only)
  ∧ timestamps_representable liquidity_only = true
  ∧ ∃ user_tags : list string,
      (AIModel.calculate_score liquidity_wallet).2 !! "user_tags"
      = Some (PyStrList user_tags)
      ∧ ("consistent_lp" ∈ user_tags ↔ 0 < liquidity_count liquidity_only)
      ∧ ("consistent_trader" ∈ user_tags ↔ 0 < swap_count liquidity_only).
Proof.
  split; [reflexivity|]. split; [reflexivity|].
  destruct (user_tags_characterised liquidity_wallet
              (ProtocolData.mk "dexes" liquidity_only) eq_refl eq_refl)
    as (tags & Htags & Hlp & Htrader & _).
  exists tags. split; [exact Htags|]. split; [exact Hlp|exact Htrader].
Defined.

(** X13: among timestamps the engine can take, the first swap of a
    wallet that so far had only liquidity actions moves its final score from [100 * n] to [60 * n + 40], where
    [n] is the number of liquidity actions: for two or more of them the
    added swap lowers the score. *)
Theorem first_swap_lowers_liquidity_only_score
    (w w' : WalletTransactionMessage.t) (dex dex' : ProtocolData.t)
    (pre post : list Transaction.t) (t : Transaction.t) :
  AIModel.find_dex (WalletTransactionMessage.data w) = Some dex →
  AIModel.find_dex (WalletTransactionMessage.data w') = Some dex' →
  ProtocolData.transactions dex = pre ++ post →
  ProtocolData.transactions dex' = pre ++ t :: post →
  timestamps_representable (pre ++ t :: post) = true →
  Transaction.action t = "swap" →
  swap_count (pre ++ post) = 0 →
  0 < liquidity_count (pre ++ post) →
  let n := liquidity_count (pre ++ post) in
  ((AIModel.calculate_score w).1 == inject_Z (100 * n))%Q
  ∧ ((AIModel.calculate_score w').1 == inject_Z (60 * n + 40))%Q
  ∧ (2 ≤ n → ((AIModel.calculate_score w').1 < (AIModel.calculate_score w).1)%Q).
Proof.
  intros Hdex Hdex' Htxs Htxs' _ Hswap Hnone Hsome n.
  rewrite (calculate_score_dexes w dex Hdex), (calculate_score_dexes w' dex' Hdex').
  cbv zeta. cbn [fst]. rewrite Htxs, Htxs'.
  assert (liquidity_count (pre ++ t :: post) = n) as ->.
  { unfold n, liquidity_count. rewrite !count_action_insert, Hswap.
    repeat case_decide; try discriminate; lia. }
  assert (swap_count (pre ++ t :: post) = 1) as ->.
  { unfold swap_count in *. rewrite count_action_insert, Hswap, Hnone.
    by case_decide. }
  fold n. rewrite Hnone.
  replace (0 <? n) with true by (symmetry; apply Z.ltb_lt; lia).
  cbn [andb Z.ltb Z.compare].
  unfold AIModel.lp_weight, AIModel.swap_weight.
  assert (inject_Z (100 * n) * (6 # 10) + inject_Z (100 * 1) * (4 # 10)
          == inject_Z (60 * n + 40))%Q as Hsum.
  { unfold Qeq, Qplus, Qmult, inject_Z. cbn. lia. }
  split; [reflexivity|]. split; [exact Hsum|].
  intros Hn. rewrite Hsum, <- Zlt_Qlt. lia.
Qed.

Lemma first_swap_lowers_liquidity_only_score_witness :
  AIModel.find_dex (WalletTransactionMessage.data liquidity_wallet)
  = Some (ProtocolData.mk "dexes" liquidity_only)
  ∧ timestamps_representable ([] ++ tx "swap" 1672790400 :: liquidity_only) = true
  ∧ swap_count ([] ++ liquidity_only) = 0
  ∧ 0 < liquidity_count ([] ++ liquidity_only)
  ∧ ((AIModel.calculate_score liquidity_wallet).1 == 300)%Q
  ∧ ((AIModel.calculate_score liquidity_and_swap_wallet).1 == 220)%Q.
Proof.
  split; [reflexivity|]. split; [reflexivity|]. split; [reflexivity|].
  split; [reflexivity|].
  destruct (first_swap_lowers_liquidity_only_score liquidity_wallet
              liquidity_and_swap_wallet
              (ProtocolData.mk "dexes" liquidity_only)
              (ProtocolData.mk "dexes" (tx "swap" 1672790400 :: liquidity_only))
              [] liquidity_only (tx "swap" 1672790400)
              eq_refl eq_refl eq_refl eq_refl eq_refl eq_refl eq_refl eq_refl)
    as (Hbefore & Hafter & _).
  split; [exact Hbefore|exact Hafter].
Defined.

(** * Further properties: the output models *)

(** X14: for a wallet whose [dexes] block, if any, has timestamps the
    engine can take: the feature dict of the engine satisfies the
    [AIFeatures] model as it is, with every field taken over unchanged,
    when there is such a block; without one the dict is rejected. *)
Theorem engine_features_satisfy_AIFeatures (w : WalletTransactionMessage.t) :
  (∀ dex, AIModel.find_dex (WalletTransactionMessage.data w) = Some dex →
          timestamps_representable (ProtocolData.transactions dex) = true) →
  match AIModel.find_dex (WalletTransactionMessage.data w) with
  | Some dex =>
      let df := ProtocolData.transactions dex in
      ∃ user_tags : list string,
        (AIModel.calculate_score w).2 !! "user_tags" = Some (PyStrList user_tags)
        ∧ AIFeatures_validate (AIModel.calculate_score w).2
          = Ok (AIFeatures.mk (AIModel._calculate_active_days df)
                  (inject_Z (100 * liquidity_count df))
                  (inject_Z (100 * swap_count df))
                  (AIModel.len df) user_tags)
  | None => ∃ e, AIFeatures_validate (AIModel.calculate_score w).2 = Raise e
  end.
Proof.
  intros _.
  destruct (AIModel.find_dex (WalletTransactionMessage.data w)) as [dex|] eqn:Hdex.
  - rewrite (calculate_score_dexes w dex Hdex). cbn [snd]. cbv zeta.
    eexists. split; [by simplify_map_eq|].
    unfold AIFeatures_validate, field. by simplify_map_eq.
  - unfold AIModel.calculate_score. rewrite Hdex. cbn [snd].
    eexists. unfold AIFeatures_validate, field. by rewrite lookup_empty.
Qed.

Lemma engine_features_satisfy_AIFeatures_witness :
  (∀ dex, AIModel.find_dex (WalletTransactionMessage.data sample_wallet) = Some dex →
          timestamps_representable (ProtocolData.transactions dex) = true)
  ∧ ∃ user_tags : list string,
      (AIModel.calculate_score sample_wallet).2 !! "user_tags"
      = Some (PyStrList user_tags)
      ∧ AIFeatures_validate (AIModel.calculate_score sample_wallet).2
        = Ok (AIFeatures.mk (AIModel._calculate_active_days SAMPLE_DF)
                (inject_Z (100 * liquidity_count SAMPLE_DF))
                (inject_Z (100 * swap_count SAMPLE_DF))
                (AIModel.len SAMPLE_DF) user_tags).
Proof.
  assert (∀ dex,
            AIModel.find_dex (WalletTransactionMessage.data sample_wallet) = Some dex →
            timestamps_representable (ProtocolData.transactions dex) = true)
    as Hrange.
  { intros dex [= <-]. reflexivity. }
  split; [exact Hrange|].
  exact (engine_features_satisfy_AIFeatures sample_wallet Hrange).
Defined.

Lemma round_half_even_integer (x : Q) (k : Z) :
  (x == inject_Z k)%Q → round_half_even x = k.
Proof.
  unfold Qeq, inject_Z, round_half_even. cbn [Qnum Qden]. intros Hx.
  assert (Qnum x = k * QDen x) as -> by lia.
  rewrite Z_div_mult by lia. rewrite Z_mod_mult.
  by replace (2 * 0 <? QDen x) with true by (symmetry; apply Z.ltb_lt; lia).
Qed.

Lemma format_18f_integer (x : Q) (n : Z) :
  0 ≤ n → (x == inject_Z n)%Q →
  format_18f x = pretty n +:+ ".000000000000000000".
Proof.
  intros Hn Hx. unfold format_18f.
  assert (round_half_even (x * inject_Z (10 ^ 18)) = n * 10 ^ 18) as ->.
  { apply round_half_even_integer. rewrite Hx, <- inject_Z_mult. reflexivity. }
  assert (0 < 10 ^ 18) as Hpow by done.
  replace (n * 10 ^ 18 <? 0) with false by (symmetry; apply Z.ltb_ge; lia).
  rewrite Z.abs_eq by lia.
  rewrite Z_div_mult by lia. rewrite Z_mod_mult.
  reflexivity.
Qed.

(** X15: for a wallet whose [dexes] block, if any, has timestamps the
    engine can take, the [zscore] text of the score is its whole number
    followed by a point and eighteen zeros: every final score of the
    engine is a non-negative whole number. *)
Theorem zscore_of_engine_score_has_zero_fraction (w : WalletTransactionMessage.t) :
  (∀ dex, AIModel.find_dex (WalletTransactionMessage.data w) = Some dex →
          timestamps_representable (ProtocolData.transactions dex) = true) →
  ∃ n : Z,
    0 ≤ n
    ∧ ((AIModel.calculate_score w).1 == inject_Z n)%Q
    ∧ format_18f (AIModel.calculate_score w).1
      = pretty n +:+ ".000000000000000000".
Proof.
  intros _.
  enough (∃ n : Z, 0 ≤ n ∧ ((AIModel.calculate_score w).1 == inject_Z n)%Q)
    as (n & Hn & Hscore).
  { exists n. split_and!; [done|done|by apply format_18f_integer]. }
  destruct (AIModel.find_dex (WalletTransactionMessage.data w)) as [dex|] eqn:Hdex.
  - rewrite (calculate_score_dexes w dex Hdex). cbn [fst]. cbv zeta.
    set (df := ProtocolData.transactions dex).
    pose proof (count_action_nonneg "add_liquidity" df).
    pose proof (count_action_nonneg "remove_liquidity" df).
    pose proof (count_action_nonneg "swap" df).
    assert (0 ≤ liquidity_count df) by (unfold liquidity_count; lia).
    assert (0 ≤ swap_count df) by (unfold swap_count; lia).
    destruct (0 <? liquidity_count df), (0 <? swap_count df); cbn [andb].
    + exists (60 * liquidity_count df + 40 * swap_count df). split; [lia|].
      unfold AIModel.lp_weight, AIModel.swap_weight, Qeq, Qplus, Qmult, inject_Z.
      cbn. lia.
    + exists (100 * liquidity_count df). split; [lia|reflexivity].
    + exists (100 * swap_count df). split; [lia|reflexivity].
    + exists 0. split; [lia|reflexivity].
  - unfold AIModel.calculate_score. rewrite Hdex. exists 0. split; [lia|reflexivity].
Qed.

Lemma zscore_of_engine_score_has_zero_fraction_witness :
  (∀ dex, AIModel.find_dex (WalletTransactionMessage.data sample_wallet) = Some dex →
          timestamps_representable (ProtocolData.transactions dex) = true)
  ∧ ∃ n : Z,
      0 ≤ n
      ∧ ((AIModel.calculate_score sample_wallet).1 == inject_Z n)%Q
      ∧ format_18f (AIModel.calculate_score sample_wallet).1
        = pretty n +:+ ".000000000000000000".
Proof.
  assert (∀ dex,
            AIModel.find_dex (WalletTransactionMessage.data sample_wallet) = Some dex →
            timestamps_representable (ProtocolData.transactions dex) = true)
    as Hrange.
  { intros dex [= <-]. reflexivity. }
  split; [exact Hrange|].
  exact (zscore_of_engine_score_has_zero_fraction sample_wallet Hrange).
Defined.

(** * Further properties: the stream processor *)

Section ProcessorFurther.

Variable model_validate : json → result WalletTransactionMessage.t.
Variable clock : nat → Z.
Variable kafka_service : KafkaService.t.

(** X16: whatever the validator accepts, the [try] block ends with an
    exception: it has sent nothing, changed no counter, and read the
    clock at most once. *)
Theorem try_block_always_raises (msg : ConsumerRecord.t) (w : World) :
  ∃ (e : exn) (n : nat),
    try_body model_validate clock kafka_service msg w = (Raise e, with_ticks n w)
    ∧ (n ≤ 1)%nat.
Proof.
  unfold try_body, bind, lift, datetime_now.
  destruct (model_validate (ConsumerRecord.value msg)) as [m|e].
  - destruct (AIModel.calculate_score m) as [final_score features].
    match goal with
    | |- context [WalletScoreSuccess_new ?a ?z ?n [CategoryDict ?c ?f ?k (filter _ ?d)]] =>
        destruct (WalletScoreSuccess_never_built a z c n f k d) as [e ->]
    end.
    exists e, 1%nat. split; [done|lia].
  - exists e, 0%nat. split; [by destruct w|lia].
Qed.

(** X17: over any delivery the loop sends nothing, to either topic, and
    counts no success. *)
Theorem loop_never_sends_nor_counts_success
    (msgs : list ConsumerRecord.t) (w : World) :
  sent (kafka_processor model_validate clock kafka_service msgs w) = sent w
  ∧ success_count (stats (kafka_processor model_validate clock kafka_service msgs w))
    = success_count (stats w).
Proof.
  destruct (kafka_processor_outcome model_validate clock kafka_service msgs w)
    as (Hsent & Hsuccess & _).
  by split.
Qed.

(** X18: every message of a delivery, whatever its payload, ends in the
    outer handler (the one that waits five seconds): the loop reports
    exactly one fatal error per message. *)
Theorem loop_reports_one_fatal_error_per_message
    (msgs : list ConsumerRecord.t) (w : World) :
  length (fatal (kafka_processor model_validate clock kafka_service msgs w))
  = (length (fatal w) + length msgs)%nat.
Proof.
  by destruct (kafka_processor_outcome model_validate clock kafka_service msgs w)
    as (_ & _ & Hfatal & _).
Qed.

(** X19: counters that are balanced stay balanced: if
    [processed_count = success_count + failure_count] before a delivery,
    the same holds after it. *)
Theorem loop_keeps_counters_balanced (msgs : list ConsumerRecord.t) (w : World) :
  processed_count (stats w) = success_count (stats w) + failure_count (stats w) →
  let w' := kafka_processor model_validate clock kafka_service msgs w in
  processed_count (stats w') = success_count (stats w') + failure_count (stats w').
Proof.
  intros Hbalanced.
  destruct (kafka_processor_outcome model_validate clock kafka_service msgs w)
    as (_ & _ & _ & Hdiff).
  cbv zeta in *. lia.
Qed.

(** X20: a delivery of object payloads is counted message by message:
    [processed_count] and [failure_count] both grow by the number of
    messages. *)
Theorem loop_counts_every_object_payload (msgs : list ConsumerRecord.t) (w : World) :
  Forall (λ msg, ∃ items, ConsumerRecord.value msg = JDict items) msgs →
  let w' := kafka_processor model_validate clock kafka_service msgs w in
  processed_count (stats w') = processed_count (stats w) + Z.of_nat (length msgs)
  ∧ failure_count (stats w') = failure_count (stats w) + Z.of_nat (length msgs)
  ∧ success_count (stats w') = success_count (stats w).
Proof.
  intros Hobjects.
  destruct (kafka_processor_counts_objects model_validate clock kafka_service
              msgs w Hobjects) as [Hprocessed Hfailure].
  destruct (kafka_processor_outcome model_validate clock kafka_service msgs w)
    as (_ & Hsuccess & _).
  by split_and!.
Qed.

Lemma kafka_processor_app (first second : list ConsumerRecord.t) (w : World) :
  kafka_processor model_validate clock kafka_service (first ++ second) w
  = kafka_processor model_validate clock kafka_service second
      (kafka_processor model_validate clock kafka_service first w).
Proof.
  revert w. induction first as [|msg first IH]; intros w; [done|].
  cbn [app kafka_processor].
  by destruct (process_message model_validate clock kafka_service msg w) as [[|e] w'].
Qed.

(** X22: when the last message of a delivery has an object payload and
    a millisecond timestamp below 2^53 in size, [last_processed_timestamp]
    ends as that timestamp in whole seconds, rounded towards zero. *)
Theorem loop_records_last_object_timestamp
    (msgs : list ConsumerRecord.t) (msg : ConsumerRecord.t)
    (items : list (string * json)) (w : World) :
  ConsumerRecord.value msg = JDict items →
  exact_milliseconds (ConsumerRecord.timestamp msg) = true →
  last_processed_timestamp
    (stats (kafka_processor model_validate clock kafka_service (msgs ++ [msg]) w))
  = Some (Z.quot (ConsumerRecord.timestamp msg) 1000).
Proof.
  intros Hvalue _. rewrite kafka_processor_app. cbn [kafka_processor].
  destruct (process_message_dict model_validate clock kafka_service msg items
              (kafka_processor model_validate clock kafka_service msgs w) Hvalue)
    as [n ->].
  by destruct (default (JStr "N/A") (assoc_lookup "wallet_address" items)).
Qed.

(** X23: a rejected message whose [wallet_address] is present but not a
    string never gets its failure envelope: the failure is counted, the
    envelope is refused, nothing is sent. *)
Theorem failure_envelope_refused_for_non_string_address
    (msg : ConsumerRecord.t) (items : list (string * json)) (address : json)
    (w : World) :
  ConsumerRecord.value msg = JDict items →
  assoc_lookup "wallet_address" items = Some address →
  (∀ s, address ≠ JStr s) →
  ∃ w',
    process_message model_validate clock kafka_service msg w
    = (Raise (ValidationError "WalletScoreFailure"
                "wallet_address: Input should be a valid string"),
       w')
    ∧ sent w' = sent w
    ∧ processed_count (stats w') = processed_count (stats w) + 1
    ∧ failure_count (stats w') = failure_count (stats w) + 1
    ∧ success_count (stats w') = success_count (stats w).
Proof.
  intros Hvalue Haddress Hnot.
  destruct (process_message_dict model_validate clock kafka_service msg items w Hvalue)
    as [n ->].
  rewrite Haddress. cbn [default].
  destruct address as [| | | |s| |]; try (by eexists); by destruct (Hnot s).
Qed.

End ProcessorFurther.

Lemma loop_keeps_counters_balanced_witness :
  processed_count (stats initial_world)
  = success_count (stats initial_world) + failure_count (stats initial_world)
  ∧ processed_count
      (stats (kafka_processor strict_model_validate sample_clock get_kafka_service
                [msg_valid; msg_array_payload; msg_null_address] initial_world))
    = success_count
        (stats (kafka_processor strict_model_validate sample_clock get_kafka_service
                  [msg_valid; msg_array_payload; msg_null_address] initial_world))
      + failure_count
          (stats (kafka_processor strict_model_validate sample_clock get_kafka_service
                    [msg_valid; msg_array_payload; msg_null_address] initial_world)).
Proof.
  split; [reflexivity|].
  exact (loop_keeps_counters_balanced strict_model_validate sample_clock
           get_kafka_service [msg_valid; msg_array_payload; msg_null_address]
           initial_world eq_refl).
Defined.

Lemma loop_counts_every_object_payload_witness :
  Forall (λ msg, ∃ items, ConsumerRecord.value msg = JDict items)
    [msg_valid; msg_null_address]
  ∧ processed_count
      (stats (kafka_processor strict_model_validate sample_clock get_kafka_service
                [msg_valid; msg_null_address] initial_world))
    = processed_count (stats initial_world) + Z.of_nat 2.
Proof.
  assert (Forall (λ msg, ∃ items, ConsumerRecord.value msg = JDict items)
            [msg_valid; msg_null_address]) as Hobjects.
  { repeat constructor; eexists; reflexivity. }
  split; [exact Hobjects|].
  exact (proj1 (loop_counts_every_object_payload strict_model_validate sample_clock
                  get_kafka_service [msg_valid; msg_null_address] initial_world
                  Hobjects)).
Defined.

Lemma loop_records_last_object_timestamp_witness :
  ConsumerRecord.value msg_valid
  = JDict [ ("wallet_address", JStr "0xabc");
            ("data", JList [ JDict [ ("protocolType", JStr "dexes");
                                     ("transactions", JList [swap_transaction]) ] ]) ]
  ∧ exact_milliseconds (ConsumerRecord.timestamp msg_valid) = true
  ∧ last_processed_timestamp
      (stats (kafka_processor strict_model_validate sample_clock get_kafka_service
                ([msg_array_payload] ++ [msg_valid]) initial_world))
    = Some (Z.quot (ConsumerRecord.timestamp msg_valid) 1000).
Proof.
  split; [reflexivity|]. split; [reflexivity|].
  exact (loop_records_last_object_timestamp strict_model_validate sample_clock
           get_kafka_service [msg_array_payload] msg_valid _ initial_world eq_refl
           eq_refl).
Defined.

Lemma failure_envelope_refused_for_non_string_address_witness :
  ConsumerRecord.value msg_null_address
  = JDict [("wallet_address", JNull); ("data", JList [])]
  ∧ assoc_lookup "wallet_address" [("wallet_address", JNull); ("data", JList [])]
    = Some JNull
  ∧ (∀ s, JNull ≠ JStr s)
  ∧ ∃ w',
      process_message strict_model_validate sample_clock get_kafka_service
        msg_null_address initial_world
      = (Raise (ValidationError "WalletScoreFailure"
                  "wallet_address: Input should be a valid string"),
         w')
      ∧ sent w' = sent initial_world
      ∧ processed_count (stats w') = processed_count (stats initial_world) + 1
      ∧ failure_count (stats w') = failure_count (stats initial_world) + 1
      ∧ success_count (stats w') = success_count (stats initial_world).
Proof.
  assert (∀ s, JNull ≠ JStr s) as Hnot by discriminate.
  split; [reflexivity|]. split; [reflexivity|]. split; [exact Hnot|].
  exact (failure_envelope_refused_for_non_string_address strict_model_validate
           sample_clock get_kafka_service msg_null_address _ JNull initial_world
           eq_refl eq_refl Hnot).
Defined.
